(** * read_fields_from_xml_file_and_dump_to_excel.py

    A shallow embedding of the three functions of the script
    ([extract_from_xml], [extract_from_met], [process_folder]) and of the
    Python built-ins they call, followed by the properties of the
    specification that hold (or fail) on them.

    Conventions.
    - A Python [str] is a [string]; a character is a code point below 256.
    - A Python [dict] is an association list in insertion order with
      pairwise distinct keys ([PyDict.wf]); [None] is [None : option _].
    - [print], [DataFrame.to_excel] and exceptions are effects of a small
      monad [IO] over the state [Sys] (console lines, files written).
    - The file system, the XML parser and [Element.find] belong to the
      environment: the first is a [World], the other two are the section
      variables [fromstring] and [find]. *)

From Stdlib Require Import List String Ascii Bool Arith Lia Permutation.
Import ListNotations.
Local Open Scope string_scope.
Local Open Scope list_scope.
Local Open Scope nat_scope.

(** String concatenation, kept apart from list append. *)
Infix "+++" := String.append (right associativity, at level 60).

(* ================================================================== *)
(** ** Python string built-ins *)

Module PyStr.

Definition LF : ascii := ascii_of_nat 10.
Definition CR : ascii := ascii_of_nat 13.
Definition nl : string := String LF EmptyString.

(** [str.isspace] on one code point below 256: TAB..CR, FS..US, SPACE,
    NEL and NBSP. *)
Definition isspace (c : ascii) : bool :=
  let n := nat_of_ascii c in
  ((9 <=? n) && (n <=? 13)) || ((28 <=? n) && (n <=? 32))
  || (n =? 133) || (n =? 160).

Fixpoint lstrip (s : string) : string :=
  match s with
  | EmptyString => EmptyString
  | String c s' => if isspace c then lstrip s' else s
  end.

Fixpoint rstrip (s : string) : string :=
  match s with
  | EmptyString => EmptyString
  | String c s' =>
      match rstrip s' with
      | EmptyString => if isspace c then EmptyString else String c EmptyString
      | r => String c r
      end
  end.

(** [s.strip()] *)
Definition strip (s : string) : string := rstrip (lstrip s).

(** [c in s] for a one-character [c] *)
Fixpoint contains (c : ascii) (s : string) : bool :=
  match s with
  | EmptyString => false
  | String c' s' => if Ascii.eqb c' c then true else contains c s'
  end.

(** The text before and after the first occurrence of [sep], if any. *)
Fixpoint partition (sep : ascii) (s : string) : option (string * string) :=
  match s with
  | EmptyString => None
  | String c s' =>
      if Ascii.eqb c sep then Some (EmptyString, s')
      else match partition sep s' with
           | Some (a, b) => Some (String c a, b)
           | None => None
           end
  end.

(** [s.split(sep, 1)] for a one-character [sep] *)
Definition split1 (sep : ascii) (s : string) : list string :=
  match partition sep s with
  | Some (a, b) => [a; b]
  | None => [s]
  end.

(** [str.lower] on one code point below 256: A..Z and the Latin-1
    capitals (all of 192..222 but the multiplication sign). *)
Definition lower_char (c : ascii) : ascii :=
  let n := nat_of_ascii c in
  if ((65 <=? n) && (n <=? 90))
     || ((192 <=? n) && (n <=? 222) && negb (n =? 215))
  then ascii_of_nat (n + 32) else c.

Fixpoint lower (s : string) : string :=
  match s with
  | EmptyString => EmptyString
  | String c s' => String (lower_char c) (lower s')
  end.

(** [s.endswith(suffix)] *)
Definition endswith (s suffix : string) : bool :=
  (String.length suffix <=? String.length s)
  && String.eqb
       (substring (String.length s - String.length suffix)
                  (String.length suffix) s)
       suffix.

Definition startswith (s pre : string) : bool := prefix pre s.

(** Text mode with universal newlines: CR LF and a lone CR are read as
    LF. *)
Fixpoint translate_newlines (s : string) : string :=
  match s with
  | EmptyString => EmptyString
  | String c s' =>
      if Ascii.eqb c CR then
        match s' with
        | String c2 s'' =>
            if Ascii.eqb c2 LF then String LF (translate_newlines s'')
            else String LF (translate_newlines s')
        | EmptyString => String LF EmptyString
        end
      else String c (translate_newlines s')
  end.

(** Lines of a text, each keeping its final LF. *)
Fixpoint splitlines_keepends (s : string) : list string :=
  match s with
  | EmptyString => []
  | String c s' =>
      if Ascii.eqb c LF then String LF EmptyString :: splitlines_keepends s'
      else match splitlines_keepends s' with
           | [] => [String c EmptyString]
           | l :: ls => String c l :: ls
           end
  end.

(** [f.readlines()] of a file opened with [open(path, 'r')] *)
Definition readlines (data : string) : list string :=
  splitlines_keepends (translate_newlines data).

(** [os.path.join(a, p)] (posixpath) *)
Definition os_path_join (a p : string) : string :=
  if startswith p "/" then p
  else if String.eqb a "" || endswith a "/" then a +++ p
  else a +++ "/" +++ p.

(** Every character is white space. *)
Fixpoint all_space (s : string) : bool :=
  match s with
  | EmptyString => true
  | String c s' => isspace c && all_space s'
  end.

Definition first_char (s : string) : option ascii :=
  match s with EmptyString => None | String c _ => Some c end.

Fixpoint last_char (s : string) : option ascii :=
  match s with
  | EmptyString => None
  | String c EmptyString => Some c
  | String _ s' => last_char s'
  end.

End PyStr.

(* ================================================================== *)
(** ** Python dictionaries: insertion-ordered, keys pairwise distinct *)

Module PyDict.

Section Dict.
Context {V : Type}.

Definition dict : Type := list (string * V).

(** [d.get(k)], [None] standing for an absent key *)
Fixpoint get (k : string) (d : dict) : option V :=
  match d with
  | [] => None
  | (k', v) :: d' => if String.eqb k' k then Some v else get k d'
  end.

(** [d[k] = v]: overwrite in place, or append a new key *)
Fixpoint set (k : string) (v : V) (d : dict) : dict :=
  match d with
  | [] => [(k, v)]
  | (k', v') :: d' =>
      if String.eqb k' k then (k', v) :: d' else (k', v') :: set k v d'
  end.

(** [list(d.keys())] *)
Definition keys (d : dict) : list string := map fst d.

(** The invariant of a Python dict. *)
Definition wf (d : dict) : Prop := NoDup (keys d).

End Dict.

Arguments dict V : clear implicits.

(** [k not in ks] *)
Definition absent (ks : list string) (k : string) : bool :=
  negb (existsb (String.eqb k) ks).

(** [dict.fromkeys(l)] *)
Definition fromkeys (l : list string) : dict unit :=
  fold_left (fun d k => set k tt d) l [].

End PyDict.

(* ================================================================== *)
(** ** Data model *)

#[local] Set Warnings "-register-all".

(** An [xml.etree.ElementTree.Element], as far as the script looks at it:
    its tag, its [text] attribute ([None] when the element holds no
    character data before its first child) and its children. *)
Inductive Element : Type :=
  mkElement { tag : string; text : option string; children : list Element }.

(** A Field Mapping: column name to locator. *)
Definition mapping : Type := PyDict.dict string.

(** A Record: column name to extracted value, [None] for Python's [None]. *)
Definition record : Type := PyDict.dict (option string).

(** A cell of the exported sheet; [None] is a blank cell. *)
Definition cell : Type := option string.

Record DataFrame : Type :=
  mkDataFrame { columns : list string; rows : list (list cell) }.

(** The cell of record [r] under column [c]: a column the record lacks and
    a column it maps to [None] are both blank. *)
Definition cell_of (r : record) (c : string) : cell :=
  match PyDict.get c r with
  | Some v => v
  | None => None
  end.

(** [pd.DataFrame(data, columns=columns)] for a list of dicts *)
Definition pd_DataFrame (data : list record) (cols : list string) : DataFrame :=
  {| columns := cols; rows := map (fun r => map (cell_of r) cols) data |}.

(* ================================================================== *)
(** ** Effects: console, written files, exceptions *)

(** The exceptions the script's calls raise.  [ET.ParseError] is a subclass
    of [SyntaxError], so [except ET.ParseError] does not catch the
    [SyntaxError] of [Element.find]; [IOError] is [OSError]. *)
Inductive exn : Type :=
| ParseError (msg : string)
| SyntaxError (msg : string)
| OSError (msg : string).

Inductive outcome (A : Type) : Type :=
| Ret (a : A)
| Raise (e : exn).
Arguments Ret {A} a.
Arguments Raise {A} e.

Record Sys : Type :=
  mkSys { stdout : list string; excel : list (string * DataFrame) }.

Definition IO (A : Type) : Type := Sys -> outcome A * Sys.

Definition ret {A} (a : A) : IO A := fun s => (Ret a, s).

Definition raise {A} (e : exn) : IO A := fun s => (Raise e, s).

Definition bind {A B} (m : IO A) (k : A -> IO B) : IO B :=
  fun s =>
    match m s with
    | (Ret a, s') => k a s'
    | (Raise e, s') => (Raise e, s')
    end.

Notation "x <- c1 ;; c2" := (bind c1 (fun x => c2))
  (at level 61, c1 at next level, right associativity).
Notation "c1 ;; c2" := (bind c1 (fun _ => c2))
  (at level 61, right associativity).

(** [try: body except ...: handler]; [handler e = None] when no [except]
    clause matches [e]. *)
Definition try_except {A} (body : IO A) (handler : exn -> option (IO A))
  : IO A :=
  fun s =>
    match body s with
    | (Ret a, s') => (Ret a, s')
    | (Raise e, s') =>
        match handler e with
        | Some h => h s'
        | None => (Raise e, s')
        end
    end.

Definition print (line : string) : IO unit :=
  fun s => (Ret tt, {| stdout := stdout s ++ [line]; excel := excel s |}).

(** [df.to_excel(path, index=False)]: the whole sheet is written in one
    step. *)
Definition to_excel (df : DataFrame) (path : string) : IO unit :=
  fun s => (Ret tt, {| stdout := stdout s; excel := excel s ++ [(path, df)] |}).

(** A file as [open] finds it. *)
Inductive File : Type :=
| Unreadable (cause : string)
| Content (data : string).

Record World : Type :=
  mkWorld { listdir : string -> outcome (list string);
            file : string -> File }.

Definition init : Sys := {| stdout := []; excel := [] |}.

(* ================================================================== *)
(** ** The script *)

Section Script.

(** [ET.fromstring]-like parser of a file's content: the root element,
    or the message of the [ParseError]. *)
Variable fromstring : string -> string + Element.

(** [Element.find(path)]: the first element the path selects, [None]
    when it selects none, or the message of the [SyntaxError] raised for
    a string that is not a path expression. *)
Variable find : Element -> string -> string + option Element.

Variable w : World.

(** [ET.parse(xml_file).getroot()] *)
Definition ET_parse (xml_file : string) : IO Element :=
  match file w xml_file with
  | Unreadable cause => raise (OSError cause)
  | Content data =>
      match fromstring data with
      | inl msg => raise (ParseError msg)
      | inr root => ret root
      end
  end.

(** [root.find(xml_path)] *)
Definition Element_find (root : Element) (xml_path : string)
  : IO (option Element) :=
  match find root xml_path with
  | inl msg => raise (SyntaxError msg)
  | inr element => ret element
  end.

(** [element.text if element is not None else None] *)
Definition text_or_None (element : option Element) : option string :=
  match element with
  | Some e => text e
  | None => None
  end.

(** The [for column_name, xml_path in data_mapping.items()] loop. *)
Fixpoint xml_fields (root : Element) (items : list (string * string))
         (rec : record) : IO record :=
  match items with
  | [] => ret rec
  | (column_name, xml_path) :: rest =>
      element <- Element_find root xml_path ;;
      xml_fields root rest
                 (PyDict.set column_name (text_or_None element) rec)
  end.

Definition extract_from_xml (xml_file : string) (data_mapping : mapping)
  : IO (option record) :=
  try_except
    (root <- ET_parse xml_file ;;
     rec <- xml_fields root data_mapping [] ;;
     ret (Some rec))
    (fun e =>
       match e with
       | ParseError msg =>
           Some (print ("[ERROR] Failed to parse XML file '" +++ xml_file
                        +++ "': " +++ msg) ;;
                 ret None)
       | _ => None
       end).

(** [with open(met_file, 'r') as f: lines = f.readlines()] *)
Definition open_readlines (met_file : string) : IO (list string) :=
  match file w met_file with
  | Unreadable cause => raise (OSError cause)
  | Content data => ret (PyStr.readlines data)
  end.

(** One turn of the [for line in lines] loop. *)
Definition met_line (file_data : PyDict.dict string) (line : string)
  : PyDict.dict string :=
  if PyStr.contains ":" line then
    match PyStr.split1 ":" line with
    | [key; value] =>
        PyDict.set (PyStr.strip key) (PyStr.strip value) file_data
    | _ => file_data
    end
  else file_data.

Definition met_file_data (lines : list string) : PyDict.dict string :=
  fold_left met_line lines [].

(** [{column_name: file_data.get(met_key) for ... in data_mapping.items()}] *)
Definition met_record (file_data : PyDict.dict string)
           (data_mapping : mapping) : record :=
  fold_left
    (fun rec '(column_name, met_key) =>
       PyDict.set column_name (PyDict.get met_key file_data) rec)
    data_mapping [].

Definition extract_from_met (met_file : string) (data_mapping : mapping)
  : IO (option record) :=
  try_except
    (lines <- open_readlines met_file ;;
     ret (Some (met_record (met_file_data lines) data_mapping)))
    (fun e =>
       match e with
       | OSError msg =>
           Some (print ("[ERROR] Failed to read .met file '" +++ met_file
                        +++ "': " +++ msg) ;;
                 ret None)
       | _ => None
       end).

(** [if record:] a [None] and an empty dict are both false. *)
Definition truthy (rec : option record) : bool :=
  match rec with
  | Some (_ :: _) => true
  | _ => false
  end.

(** [all_records.append(record)] under [if record:] *)
Definition collect (all_records : list record) (rec : option record)
  : list record :=
  if truthy rec then
    match rec with
    | Some r => all_records ++ [r]
    | None => all_records
    end
  else all_records.

(** The body of [for filename in os.listdir(folder_path)].  The [.met]
    branch is commented out in the source, hence absent here. *)
Definition visit (folder_path : string) (xml_mapping : mapping)
           (all_records : list record) (filename : string)
  : IO (list record) :=
  let file_path := PyStr.os_path_join folder_path filename in
  rec <- (if PyStr.endswith (PyStr.lower filename) ".xml" then
            print ("  -> Extracting XML: " +++ filename) ;;
            extract_from_xml file_path xml_mapping
          else ret None) ;;
  ret (collect all_records rec).

Fixpoint for_each_file (folder_path : string) (xml_mapping : mapping)
         (names : list string) (all_records : list record)
  : IO (list record) :=
  match names with
  | [] => ret all_records
  | filename :: rest =>
      all_records' <- visit folder_path xml_mapping all_records filename ;;
      for_each_file folder_path xml_mapping rest all_records'
  end.

(** [os.listdir(folder_path)] *)
Definition os_listdir (folder_path : string) : IO (list string) :=
  fun s => (listdir w folder_path, s).

(** [list(dict.fromkeys(list(xml_mapping.keys())
                            + list(met_mapping.keys())))] *)
Definition all_columns (xml_mapping met_mapping : mapping) : list string :=
  PyDict.keys
    (PyDict.fromkeys (PyDict.keys xml_mapping ++ PyDict.keys met_mapping)).

(** The records the loop of [process_folder] collects. *)
Definition scan (folder_path : string) (xml_mapping : mapping)
  : IO (list record) :=
  print (PyStr.nl +++ "[INFO] Scanning folder: " +++ folder_path) ;;
  names <- os_listdir folder_path ;;
  for_each_file folder_path xml_mapping names [].

(** What follows the loop. *)
Definition export (all_records : list record)
           (xml_mapping met_mapping : mapping) (output_excel_path : string)
  : IO unit :=
  match all_records with
  | _ :: _ =>
      let df := pd_DataFrame all_records
                             (all_columns xml_mapping met_mapping) in
      to_excel df output_excel_path ;;
      print (PyStr.nl +++ "[SUCCESS] Data exported to '"
             +++ output_excel_path +++ "'")
  | [] =>
      print (PyStr.nl
             +++ "[WARNING] No valid data extracted from the provided folder.")
  end.

Definition process_folder (folder_path : string)
           (xml_mapping met_mapping : mapping) (output_excel_path : string)
  : IO unit :=
  all_records <- scan folder_path xml_mapping ;;
  export all_records xml_mapping met_mapping output_excel_path.

End Script.

(* ================================================================== *)
(** ** A small ElementTree, to run the script on concrete files

    [SimpleET.fromstring] reads documents made of start tags, end tags,
    empty-element tags and character data (no attributes, entities,
    comments or declarations); [SimpleET.find] evaluates location paths
    whose steps are [.], [*] or a tag.  They instantiate the section
    variables in the examples; what lies outside this fragment is
    rejected here, whatever the library does with it. *)

Module SimpleET.

Inductive token : Type :=
| TOpen (t : string)
| TClose (t : string)
| TEmpty (t : string)
| TText (s : string).

Definition snoc (s : string) (c : ascii) : string := s +++ String c EmptyString.

Definition text_token (acc : string) : list token :=
  match acc with
  | EmptyString => []
  | _ => [TText acc]
  end.

Definition valid_name (t : string) : bool :=
  negb (String.eqb t "")
  && negb (PyStr.contains "/" t)
  && negb (PyStr.contains " " t).

(** The token of the markup between [<] and [>]. *)
Definition tag_token (acc : string) : option token :=
  match acc with
  | String "/" t => if valid_name t then Some (TClose t) else None
  | _ =>
      if PyStr.endswith acc "/" then
        let t := substring 0 (String.length acc - 1) acc in
        if valid_name t then Some (TEmpty t) else None
      else if valid_name acc then Some (TOpen acc) else None
  end.

Definition cons_tokens (ts : list token) (r : string + list token)
  : string + list token :=
  match r with
  | inl msg => inl msg
  | inr ts' => inr (ts ++ ts')
  end.

Fixpoint lex (in_tag : bool) (acc : string) (s : string)
  : string + list token :=
  match s with
  | EmptyString =>
      if in_tag then inl "unclosed token" else inr (text_token acc)
  | String c s' =>
      if in_tag then
        if Ascii.eqb c ">" then
          match tag_token acc with
          | Some t => cons_tokens [t] (lex false EmptyString s')
          | None => inl "not well-formed (invalid token)"
          end
        else if Ascii.eqb c "<" then inl "not well-formed (invalid token)"
        else lex true (snoc acc c) s'
      else
        if Ascii.eqb c "<" then
          cons_tokens (text_token acc) (lex true EmptyString s')
        else lex false (snoc acc c) s'
  end.

(** An element under construction: tag, text, children so far (last
    first). *)
Definition frame : Type := (string * option string * list Element)%type.

Definition attach (e : Element) (stack : list frame)
  : list frame * option Element :=
  match stack with
  | [] => ([], Some e)
  | (tg, tx, ch) :: st => ((tg, tx, e :: ch) :: st, None)
  end.

Fixpoint build (ts : list token) (stack : list frame) (root : option Element)
  : string + Element :=
  match ts with
  | [] =>
      match stack, root with
      | [], Some r => inr r
      | _, _ => inl "no element found"
      end
  | TText s :: ts' =>
      match stack with
      | [] =>
          if PyStr.all_space s then build ts' [] root
          else match root with
               | Some _ => inl "junk after document element"
               | None => inl "syntax error"
               end
      | (tg, tx, ch) :: st =>
          build ts' ((tg, match ch with [] => Some s | _ => tx end, ch) :: st)
                root
      end
  | TOpen tg :: ts' =>
      match stack, root with
      | [], Some _ => inl "junk after document element"
      | _, _ => build ts' ((tg, None, []) :: stack) root
      end
  | TEmpty tg :: ts' =>
      match stack, root with
      | [], Some _ => inl "junk after document element"
      | _, _ =>
          match attach (mkElement tg None []) stack with
          | (stack', Some r) => build ts' stack' (Some r)
          | (stack', None) => build ts' stack' root
          end
      end
  | TClose tg :: ts' =>
      match stack with
      | [] => inl "not well-formed (invalid token)"
      | (tg', tx, ch) :: st =>
          if String.eqb tg tg' then
            match attach (mkElement tg' tx (rev ch)) st with
            | (stack', Some r) => build ts' stack' (Some r)
            | (stack', None) => build ts' stack' root
            end
          else inl "mismatched tag"
      end
  end.

Definition fromstring (data : string) : string + Element :=
  match lex false EmptyString data with
  | inl msg => inl msg
  | inr ts => build ts [] None
  end.

Fixpoint split_all (sep : ascii) (s : string) : list string :=
  match s with
  | EmptyString => [EmptyString]
  | String c s' =>
      if Ascii.eqb c sep then EmptyString :: split_all sep s'
      else match split_all sep s' with
           | [] => [String c EmptyString]
           | x :: xs => String c x :: xs
           end
  end.

Definition supported_step (tok : string) : bool :=
  String.eqb tok "." || String.eqb tok "*" || valid_name tok
  && negb (String.eqb tok "..") && negb (PyStr.contains "[" tok).

Definition select (ctx : list Element) (tok : string) : list Element :=
  if String.eqb tok "." then ctx
  else if String.eqb tok "*" then flat_map children ctx
  else flat_map
         (fun e => filter (fun c => String.eqb (tag c) tok) (children e)) ctx.

Definition find (root : Element) (path : string) : string + option Element :=
  if PyStr.startswith path "/" then inl "cannot use absolute path on element"
  else
    let toks := split_all "/" path in
    if forallb supported_step toks
    then inr (hd_error (fold_left select toks [root]))
    else inl "invalid path".

End SimpleET.

(* ================================================================== *)
(** ** Concrete folders *)

Module Examples.

(** A world holding one folder [folder_path] with the given entries. *)
Definition folder (folder_path : string) (entries : list (string * File))
  : World :=
  {| listdir := fun d =>
       if String.eqb d folder_path then Ret (map fst entries)
       else Raise (OSError ("[Errno 2] No such file or directory: '"
                            +++ d +++ "'"));
     file := fun p =>
       match
         List.find
           (fun e => String.eqb (PyStr.os_path_join folder_path (fst e)) p)
           entries
       with
       | Some e => snd e
       | None => Unreadable ("[Errno 2] No such file or directory: '"
                             +++ p +++ "'")
       end |}.

Definition xml_mapping : mapping :=
  [("Full Name", "./details/name");
   ("Age", "./details/age");
   ("Email Address", "./contact/email")].

Definition met_mapping : mapping :=
  [("Full Name", "Full Name");
   ("Age", "Age");
   ("Email Address", "Email Address")].

Definition a_xml : string :=
  "<r><details><name>Ann</name><age>30</age></details><contact><email>a@x.com</email></contact></r>".

(** [name] is matched but empty, [age] is not matched at all. *)
Definition c_xml : string :=
  "<r><details><name/></details><contact><email> c@x.com </email></contact></r>".

(** The same with [name] missing too. *)
Definition d_xml : string :=
  "<r><details></details><contact><email> c@x.com </email></contact></r>".

Definition bad_xml : string := "<r><details></r>".

Definition b_met : string :=
  "Full Name: Bob" +++ PyStr.nl +++ "Age : 52" +++ PyStr.nl
  +++ "no separator here" +++ PyStr.nl
  +++ "  Age:  25:00 " +++ PyStr.nl.

Definition denied : File := Unreadable "[Errno 13] Permission denied".

Definition run (w : World) (xml met : mapping) : outcome unit * Sys :=
  process_folder SimpleET.fromstring SimpleET.find w "in" xml met "out.xlsx"
                 init.

Definition ann : record :=
  [("Full Name", Some "Ann"); ("Age", Some "30");
   ("Email Address", Some "a@x.com")].

Definition w_mixed : World :=
  folder "in" [("a.xml", Content a_xml); ("b.met", Content b_met);
               ("notes.txt", Content "hello"); ("bad.xml", Content bad_xml);
               ("C.XML", Content c_xml)].

Definition w_mixed_rev : World :=
  folder "in" [("C.XML", Content c_xml); ("bad.xml", Content bad_xml);
               ("notes.txt", Content "hello"); ("b.met", Content b_met);
               ("a.xml", Content a_xml)].

Definition w_met_only : World := folder "in" [("b.met", Content b_met)].

Definition w_denied : World :=
  folder "in" [("a.xml", Content a_xml); ("locked.xml", denied);
               ("C.XML", Content c_xml)].

Definition w_one : World := folder "in" [("a.xml", Content a_xml)].

Definition w_empty : World :=
  folder "in" [("c.xml", Content c_xml); ("d.xml", Content d_xml)].

Definition c_root : Element :=
  mkElement "r" None
    [mkElement "details" None [mkElement "name" None []];
     mkElement "contact" None [mkElement "email" (Some " c@x.com ") []]].

Definition d_root : Element :=
  mkElement "r" None
    [mkElement "details" None [];
     mkElement "contact" None [mkElement "email" (Some " c@x.com ") []]].

Definition a_root : Element :=
  mkElement "r" None
    [mkElement "details" None
       [mkElement "name" (Some "Ann") []; mkElement "age" (Some "30") []];
     mkElement "contact" None [mkElement "email" (Some "a@x.com") []]].

End Examples.

(* ================================================================== *)
(** ** Notions of the specification *)

(** The union column order in the specification's words: the keys of the
    XML mapping, then the keys of the Key-Value mapping that are not among
    them. *)
Definition union_columns (xml_keys met_keys : list string) : list string :=
  xml_keys ++ filter (PyDict.absent xml_keys) met_keys.

(** The value a path resolves to on a document: the text of the first
    element it selects, [None] when it selects none. *)
Definition resolve (find : Element -> string -> string + option Element)
           (root : Element) (xml_path : string) : option string :=
  match find root xml_path with
  | inr element => text_or_None element
  | inl _ => None
  end.

(** The key a line of a key-value file defines, if it defines one. *)
Definition line_key (line : string) : option string :=
  match PyStr.partition ":" line with
  | Some (a, _) => Some (PyStr.strip a)
  | None => None
  end.

(** Two sequences of exported sheets agree up to the order of the rows:
    same destinations, same columns, same rows as multisets. *)
Definition same_export (e1 e2 : list (string * DataFrame)) : Prop :=
  Forall2
    (fun a b =>
       fst a = fst b
       /\ columns (snd a) = columns (snd b)
       /\ Permutation (rows (snd a)) (rows (snd b)))
    e1 e2.

(** Two enumerations of one unchanged directory: the same failure, or the
    same entries in some order. *)
Definition same_listing (l1 l2 : outcome (list string)) : Prop :=
  match l1, l2 with
  | Ret n1, Ret n2 => Permutation n1 n2
  | Raise e1, Raise e2 => e1 = e2
  | _, _ => False
  end.

(** What a file contributes to [all_records], or the exception that leaves
    the loop: [visit] run on no records and an empty console. *)
Definition contribution (fromstring : string -> string + Element)
           (find : Element -> string -> string + option Element)
           (w : World) (folder_path : string) (xml_mapping : mapping)
           (filename : string) : outcome (list record) :=
  fst (visit fromstring find w folder_path xml_mapping [] filename init).

Definition contributed (o : outcome (list record)) : list record :=
  match o with
  | Ret rs => rs
  | Raise _ => []
  end.

Definition raises {A} (o : outcome A) : bool :=
  match o with
  | Ret _ => false
  | Raise _ => true
  end.

(** A contribution appended to the records collected so far. *)
Definition extend (all_records : list record) (o : outcome (list record))
  : outcome (list record) :=
  match o with
  | Ret rs => Ret (all_records ++ rs)
  | Raise e => Raise e
  end.

Section Batch.
Variable fromstring : string -> string + Element.
Variable find : Element -> string -> string + option Element.
Variable w : World.
Variables (folder_path : string) (xml_mapping met_mapping : mapping).

(** Some file of the listing makes the loop raise. *)
Definition any_raises (names : list string) : bool :=
  existsb
    (fun f => raises (contribution fromstring find w folder_path
                                   xml_mapping f))
    names.

(** The records of the files of the listing, in its order. *)
Definition all_contributed (names : list string) : list record :=
  flat_map
    (fun f => contributed (contribution fromstring find w folder_path
                                        xml_mapping f))
    names.

(** The sheets one run of [process_folder] writes. *)
Definition exported (output_excel_path : string)
  : list (string * DataFrame) :=
  match listdir w folder_path with
  | Raise _ => []
  | Ret names =>
      if any_raises names then []
      else match all_contributed names with
           | [] => []
           | rs => [(output_excel_path,
                     pd_DataFrame rs (all_columns xml_mapping met_mapping))]
           end
  end.
End Batch.

(* ================================================================== *)
(** ** The entry point

    The [if __name__ == "__main__":] block: two literal mappings sharing
    their column names, a literal folder and a literal destination. *)

Module Main.

Definition xml_mapping : mapping :=
  [("Full Name", "./details/name");
   ("Age", "./details/age");
   ("Email Address", "./contact/email")].

Definition met_mapping : mapping :=
  [("Full Name", "Full Name");
   ("Age", "Age");
   ("Email Address", "Email Address")].

Definition input_folder : string := "path/to/your/files".

Definition output_file : string := "output_data.xlsx".

Definition main (fromstring : string -> string + Element)
           (find : Element -> string -> string + option Element)
           (w : World) : IO unit :=
  process_folder fromstring find w input_folder xml_mapping met_mapping
                 output_file.

End Main.

(** [filename.lower().endswith(".xml")], the test of the loop. *)
Definition is_xml (filename : string) : bool :=
  PyStr.endswith (PyStr.lower filename) ".xml".

(** The three console lines of [process_folder] that do not depend on a
    file. *)
Definition info_line (folder_path : string) : string :=
  PyStr.nl +++ "[INFO] Scanning folder: " +++ folder_path.

Definition success_line (output_excel_path : string) : string :=
  PyStr.nl +++ "[SUCCESS] Data exported to '" +++ output_excel_path +++ "'".

Definition warning_line : string :=
  PyStr.nl +++ "[WARNING] No valid data extracted from the provided folder.".

(* ================================================================== *)
(** ** Facts about the string built-ins *)

Module PyStrFacts.
Import PyStr.

Lemma partition_sound sep s a b :
  partition sep s = Some (a, b) ->
  s = a +++ String sep b /\ contains sep a = false.
Proof.
  revert a b.
  induction s as [|c s IH]; intros a b H; simpl in H; [discriminate|].
  destruct (Ascii.eqb c sep) eqn:E.
  - apply Ascii.eqb_eq in E. subst c.
    injection H as <- <-. now split.
  - destruct (partition sep s) as [[a' b']|]; [|discriminate].
    injection H as <- <-.
    destruct (IH a' b' eq_refl) as [-> Hc].
    split; [reflexivity|]. simpl. now rewrite E.
Qed.

Lemma partition_first sep a b :
  contains sep a = false -> partition sep (a +++ String sep b) = Some (a, b).
Proof.
  induction a as [|c a IH]; simpl; intros H.
  - now rewrite Ascii.eqb_refl.
  - destruct (Ascii.eqb c sep); [discriminate|]. now rewrite IH.
Qed.

Lemma partition_contains sep s :
  contains sep s = true <-> exists a b, partition sep s = Some (a, b).
Proof.
  induction s as [|c s IH]; simpl.
  - split; [discriminate|]. now intros (a & b & H).
  - destruct (Ascii.eqb c sep).
    + split; [|reflexivity]. intros _. now exists EmptyString, s.
    + rewrite IH. split.
      * intros (a & b & ->). now exists (String c a), b.
      * intros (a & b & H).
        destruct (partition sep s) as [[a' b']|]; [|discriminate].
        now exists a', b'.
Qed.

Lemma partition_None sep s :
  contains sep s = false <-> partition sep s = None.
Proof.
  destruct (contains sep s) eqn:E.
  - apply partition_contains in E. destruct E as (a & b & ->).
    split; discriminate.
  - split; [|reflexivity]. intros _.
    destruct (partition sep s) as [[a b]|] eqn:P; [|reflexivity].
    assert (contains sep s = true) by (apply partition_contains; eauto).
    congruence.
Qed.

Lemma lstrip_spec s :
  exists l, s = l +++ lstrip s /\ all_space l = true.
Proof.
  induction s as [|c s (l & Hl & Hs)]; simpl.
  - now exists EmptyString.
  - destruct (isspace c) eqn:E.
    + exists (String c l). simpl. rewrite E, Hs. now rewrite <- Hl.
    + now exists EmptyString.
Qed.

Lemma lstrip_first s c :
  first_char (lstrip s) = Some c -> isspace c = false.
Proof.
  induction s as [|c' s IH]; simpl; [discriminate|].
  destruct (isspace c') eqn:E; [exact IH|].
  simpl. now intros [= <-].
Qed.

Lemma rstrip_spec s :
  exists r, s = rstrip s +++ r /\ all_space r = true.
Proof.
  induction s as [|c s (r & Hr & Hs)]; simpl.
  - now exists EmptyString.
  - destruct (rstrip s) as [|c' s'] eqn:R.
    + simpl in Hr. subst r.
      destruct (isspace c) eqn:E.
      * exists (String c s). simpl. now rewrite E, Hs.
      * now exists s.
    + exists r. split; [simpl; f_equal; exact Hr | exact Hs].
Qed.

Lemma rstrip_last s c :
  last_char (rstrip s) = Some c -> isspace c = false.
Proof.
  induction s as [|c' s IH]; simpl; [discriminate|].
  destruct (rstrip s) as [|c'' s'] eqn:R.
  - destruct (isspace c') eqn:E; simpl; [discriminate|]. now intros [= <-].
  - exact IH.
Qed.

Lemma rstrip_first_inv s c :
  first_char (rstrip s) = Some c -> first_char s = Some c.
Proof.
  destruct s as [|c' s]; simpl; [discriminate|].
  destruct (rstrip s); [destruct (isspace c')|]; simpl; congruence.
Qed.

(** [strip] removes white space at both ends and nothing else. *)
Lemma strip_spec s :
  (exists l r, s = l +++ strip s +++ r
               /\ all_space l = true /\ all_space r = true)
  /\ (forall c, first_char (strip s) = Some c -> isspace c = false)
  /\ (forall c, last_char (strip s) = Some c -> isspace c = false).
Proof.
  unfold strip. repeat split.
  - destruct (lstrip_spec s) as (l & Hl & Hls).
    destruct (rstrip_spec (lstrip s)) as (r & Hr & Hrs).
    exists l, r. repeat split; trivial.
    now rewrite <- Hr.
  - intros c H. apply rstrip_first_inv in H. now apply lstrip_first in H.
  - apply rstrip_last.
Qed.

End PyStrFacts.

(* ================================================================== *)
(** ** Facts about dictionaries *)

Module PyDictFacts.
Import PyDict.

Section Facts.
Context {V : Type}.
Implicit Types (d : dict V) (k : string) (v : V).

Lemma get_set_same k v d : get k (set k v d) = Some v.
Proof.
  induction d as [|[k' v'] d IH]; simpl.
  - now rewrite String.eqb_refl.
  - destruct (String.eqb k' k) eqn:E; simpl; now rewrite E.
Qed.

Lemma get_set_other k k' v d : k <> k' -> get k (set k' v d) = get k d.
Proof.
  intros N. induction d as [|[k0 v0] d IH]; simpl.
  - destruct (String.eqb k' k) eqn:E; [|reflexivity].
    apply String.eqb_eq in E. congruence.
  - destruct (String.eqb k0 k') eqn:E; simpl.
    + apply String.eqb_eq in E. subst k0.
      destruct (String.eqb k' k) eqn:E'; [|reflexivity].
      apply String.eqb_eq in E'. congruence.
    + now rewrite IH.
Qed.


Lemma set_fresh k v d : ~ In k (keys d) -> set k v d = d ++ [(k, v)].
Proof.
  induction d as [|[k' v'] d IH]; simpl; [reflexivity|].
  intros N. destruct (String.eqb k' k) eqn:E.
  - apply String.eqb_eq in E. tauto.
  - rewrite IH; tauto.
Qed.

Lemma keys_set_present k v d : In k (keys d) -> keys (set k v d) = keys d.
Proof.
  induction d as [|[k' v'] d IH]; simpl; [tauto|].
  intros H. destruct (String.eqb k' k) eqn:E; simpl; [reflexivity|].
  rewrite IH; [reflexivity|].
  destruct H as [->|H]; [|exact H].
  now rewrite String.eqb_refl in E.
Qed.

(** Filling a dictionary from the items of a well-formed one, one
    assignment per item, lays the items out in their order. *)
Lemma fold_set_items {X} (f : X -> V) (items : list (string * X)) d :
  NoDup (keys d ++ keys items) ->
  fold_left (fun r '(c, x) => set c (f x) r) items d
  = d ++ map (fun '(c, x) => (c, f x)) items.
Proof.
  revert d. induction items as [|[c x] items IH]; intros d N; simpl.
  - now rewrite app_nil_r.
  - simpl in N.
    rewrite set_fresh.
    + rewrite IH.
      * now rewrite <- app_assoc.
      * unfold keys in *. rewrite map_app, <- app_assoc. exact N.
    + apply NoDup_remove_2 in N. intros I. apply N, in_or_app. now left.
Qed.

Lemma keys_map_items {X} (f : X -> V) (items : list (string * X)) :
  keys (map (fun '(c, x) => (c, f x)) items) = keys items.
Proof.
  unfold keys. rewrite map_map. apply map_ext. now intros [c x].
Qed.

Lemma get_map_items {X} (f : X -> V) (items : list (string * X)) c x :
  NoDup (keys items) -> In (c, x) items ->
  get c (map (fun '(c, x) => (c, f x)) items) = Some (f x).
Proof.
  induction items as [|[c' x'] items IH]; simpl; [tauto|].
  intros N [E|I].
  - injection E as -> ->. now rewrite String.eqb_refl.
  - inversion N as [|? ? N1 N2]; subst.
    destruct (String.eqb c' c) eqn:E.
    + apply String.eqb_eq in E. subst c'.
      exfalso. apply N1. unfold keys.
      change c with (fst (c, x)). now apply in_map.
    + now apply IH.
Qed.

End Facts.

Lemma absent_true ks k : absent ks k = true <-> ~ In k ks.
Proof.
  unfold absent. rewrite negb_true_iff.
  split.
  - intros E I.
    assert (existsb (String.eqb k) ks = true) as T.
    { apply existsb_exists. exists k. split; [exact I|apply String.eqb_refl]. }
    congruence.
  - intros N. destruct (existsb (String.eqb k) ks) eqn:E; [|reflexivity].
    apply existsb_exists in E. destruct E as (x & I & E).
    apply String.eqb_eq in E. now subst x.
Qed.

Lemma keys_set_tt k (d : dict unit) :
  keys (set k tt d) = if absent (keys d) k then keys d ++ [k] else keys d.
Proof.
  destruct (absent (keys d) k) eqn:E.
  - apply absent_true in E. rewrite set_fresh by exact E.
    unfold keys. now rewrite map_app.
  - apply keys_set_present.
    destruct (in_dec string_dec k (keys d)) as [I|N]; [exact I|].
    apply absent_true in N. congruence.
Qed.

Lemma keys_fold_fromkeys (l : list string) (d : dict unit) :
  NoDup l ->
  keys (fold_left (fun d k => set k tt d) l d)
  = keys d ++ filter (absent (keys d)) l.
Proof.
  revert d. induction l as [|k l IH]; intros d N; simpl.
  - now rewrite app_nil_r.
  - inversion N as [|? ? N1 N2]; subst.
    rewrite IH by exact N2. rewrite keys_set_tt.
    destruct (absent (keys d) k) eqn:E; [|reflexivity].
    rewrite <- app_assoc. simpl. do 2 f_equal.
    apply filter_ext_in. intros x I.
    unfold absent. rewrite existsb_app. simpl.
    destruct (String.eqb x k) eqn:X.
    + apply String.eqb_eq in X. now subst x.
    + now rewrite !orb_false_r.
Qed.

(** [dict.fromkeys] of two duplicate-free lists, one after the other. *)
Lemma keys_fromkeys_app (xs ys : list string) :
  NoDup xs -> NoDup ys ->
  keys (fromkeys (xs ++ ys)) = xs ++ filter (absent xs) ys.
Proof.
  intros Nx Ny. unfold fromkeys. rewrite fold_left_app.
  rewrite keys_fold_fromkeys by exact Ny.
  rewrite keys_fold_fromkeys by exact Nx. simpl.
  assert (filter (absent []) xs = xs) as ->; [|reflexivity].
  clear. induction xs; simpl; congruence.
Qed.

End PyDictFacts.

(* ================================================================== *)
(** ** The XML Field Extractor *)

Section XmlExtractor.

Variable fromstring : string -> string + Element.
Variable find : Element -> string -> string + option Element.
Variable w : World.

(** The loop over the mapping neither prints nor writes. *)
Lemma xml_fields_pure root items rec s :
  xml_fields find root items rec s
  = (fst (xml_fields find root items rec init), s).
Proof.
  revert rec. induction items as [|[c p] items IH]; intros rec; simpl.
  - reflexivity.
  - unfold bind, Element_find.
    destruct (find root p) as [msg|element]; simpl; [reflexivity|].
    apply IH.
Qed.

(** The only exception of the loop is the [SyntaxError] of [find]. *)
Lemma xml_fields_raises root items rec e :
  fst (xml_fields find root items rec init) = Raise e ->
  exists msg, e = SyntaxError msg.
Proof.
  revert rec. induction items as [|[c p] items IH]; intros rec; simpl.
  - discriminate.
  - unfold bind, Element_find.
    destruct (find root p) as [msg|element]; simpl.
    + intros [= <-]. now exists msg.
    + apply IH.
Qed.

Lemma xml_fields_ok root items rec s :
  (forall c p, In (c, p) items -> exists r, find root p = inr r) ->
  xml_fields find root items rec s
  = (Ret (fold_left (fun r '(c, p) => PyDict.set c (resolve find root p) r)
                    items rec), s).
Proof.
  revert rec. induction items as [|[c p] items IH]; intros rec H; simpl.
  - reflexivity.
  - unfold bind, Element_find, resolve.
    destruct (H c p (or_introl eq_refl)) as [r Hr]. rewrite Hr. simpl.
    rewrite IH.
    + reflexivity.
    + intros c' p' I. apply (H c' p'). now right.
Qed.

(** On a readable, well-formed file whose paths are path expressions the
    extractor returns the mapping with each path resolved, and touches
    neither the console nor the disk. *)
Lemma extract_from_xml_ok xml_file data root data_mapping s :
  file w xml_file = Content data ->
  fromstring data = inr root ->
  PyDict.wf data_mapping ->
  (forall c p, In (c, p) data_mapping -> exists r, find root p = inr r) ->
  extract_from_xml fromstring find w xml_file data_mapping s
  = (Ret (Some (map (fun '(c, p) => (c, resolve find root p)) data_mapping)),
     s).
Proof.
  intros Hf Hp Hwf Hv.
  unfold extract_from_xml, try_except, bind, ET_parse.
  rewrite Hf, Hp. simpl.
  rewrite xml_fields_ok by exact Hv. simpl.
  now rewrite PyDictFacts.fold_set_items.
Qed.

(** A file that is readable but not well-formed: the [ParseError] is
    caught, reported with the path and the parser's message, and [None]
    is returned. *)
Lemma extract_from_xml_malformed xml_file data msg data_mapping s :
  file w xml_file = Content data ->
  fromstring data = inl msg ->
  extract_from_xml fromstring find w xml_file data_mapping s
  = (Ret None,
     {| stdout := stdout s
                  ++ ["[ERROR] Failed to parse XML file '" +++ xml_file
                      +++ "': " +++ msg];
        excel := excel s |}).
Proof.
  intros Hf Hp.
  unfold extract_from_xml, try_except, bind, ET_parse.
  now rewrite Hf, Hp.
Qed.

(** A file that cannot be opened: the [OSError] leaves the extractor. *)
Lemma extract_from_xml_unreadable xml_file cause data_mapping s :
  file w xml_file = Unreadable cause ->
  extract_from_xml fromstring find w xml_file data_mapping s
  = (Raise (OSError cause), s).
Proof.
  intros Hf.
  unfold extract_from_xml, try_except, bind, ET_parse.
  now rewrite Hf.
Qed.

(** The extractor's result does not depend on the state it starts in;
    it only adds lines to the console. *)
Lemma extract_from_xml_frame xml_file data_mapping s :
  exists out,
    extract_from_xml fromstring find w xml_file data_mapping s
    = (fst (extract_from_xml fromstring find w xml_file data_mapping init),
       {| stdout := stdout s ++ out; excel := excel s |}).
Proof.
  unfold extract_from_xml, try_except, bind, ET_parse.
  destruct (file w xml_file) as [cause|data]; simpl.
  - exists []. rewrite app_nil_r. now destruct s.
  - destruct (fromstring data) as [msg|root]; simpl.
    + eexists. reflexivity.
    + rewrite (xml_fields_pure root data_mapping [] s).
      rewrite (xml_fields_pure root data_mapping [] init).
      exists []. rewrite app_nil_r.
      destruct (fst (xml_fields find root data_mapping [] init))
        as [r|e] eqn:R; simpl; [now destruct s|].
      destruct (xml_fields_raises _ _ _ _ R) as [msg ->].
      now destruct s.
Qed.

End XmlExtractor.

(* ================================================================== *)
(** ** The Key-Value Field Extractor *)

Section MetExtractor.

Variable w : World.

Lemma met_line_sep file_data line a b :
  PyStr.partition ":" line = Some (a, b) ->
  met_line file_data line
  = PyDict.set (PyStr.strip a) (PyStr.strip b) file_data.
Proof.
  intros P. unfold met_line, PyStr.split1. rewrite P.
  assert (PyStr.contains ":" line = true) as ->; [|reflexivity].
  apply PyStrFacts.partition_contains. eauto.
Qed.

Lemma met_line_nosep file_data line :
  PyStr.contains ":" line = false -> met_line file_data line = file_data.
Proof. intros C. unfold met_line. now rewrite C. Qed.

Lemma get_met_line_other file_data line k :
  line_key line <> Some k ->
  PyDict.get k (met_line file_data line) = PyDict.get k file_data.
Proof.
  unfold line_key. intros N.
  destruct (PyStr.partition ":" line) as [[a b]|] eqn:P.
  - rewrite (met_line_sep _ _ _ _ P).
    apply PyDictFacts.get_set_other. congruence.
  - rewrite met_line_nosep; [reflexivity|].
    now apply PyStrFacts.partition_None.
Qed.

Lemma get_fold_met_line_other lines file_data k :
  (forall line, In line lines -> line_key line <> Some k) ->
  PyDict.get k (fold_left met_line lines file_data) = PyDict.get k file_data.
Proof.
  revert file_data.
  induction lines as [|line lines IH]; intros file_data H; simpl.
  - reflexivity.
  - rewrite IH by (intros l I; apply H; now right).
    apply get_met_line_other, H. now left.
Qed.

(** Last occurrence wins. *)
Lemma get_met_file_data_last before line after a b :
  PyStr.partition ":" line = Some (a, b) ->
  (forall l, In l after -> line_key l <> Some (PyStr.strip a)) ->
  PyDict.get (PyStr.strip a) (met_file_data (before ++ line :: after))
  = Some (PyStr.strip b).
Proof.
  intros P H. unfold met_file_data. rewrite fold_left_app. simpl.
  rewrite get_fold_met_line_other by exact H.
  rewrite (met_line_sep _ _ _ _ P).
  apply PyDictFacts.get_set_same.
Qed.

(** A key that no line defines is absent. *)
Lemma get_met_file_data_never lines k :
  (forall l, In l lines -> line_key l <> Some k) ->
  PyDict.get k (met_file_data lines) = None.
Proof.
  intros H. unfold met_file_data.
  now rewrite get_fold_met_line_other by exact H.
Qed.

(** The reading of [line_key] in terms of the text of the line. *)
Lemma line_key_not line k :
  (forall a b, line = a +++ ":" +++ b -> PyStr.contains ":" a = false ->
               PyStr.strip a <> k) ->
  line_key line <> Some k.
Proof.
  intros H. unfold line_key.
  destruct (PyStr.partition ":" line) as [[a b]|] eqn:P; [|discriminate].
  destruct (PyStrFacts.partition_sound _ _ _ _ P) as [E C].
  intros [= K]. exact (H a b E C K).
Qed.

Lemma met_record_wf file_data (data_mapping : mapping) :
  PyDict.wf data_mapping ->
  met_record file_data data_mapping
  = map (fun '(c, k) => (c, PyDict.get k file_data)) data_mapping.
Proof.
  intros Hwf. unfold met_record.
  now rewrite (PyDictFacts.fold_set_items
                 (fun k => PyDict.get k file_data)).
Qed.

Lemma extract_from_met_ok met_file data data_mapping s :
  file w met_file = Content data ->
  extract_from_met w met_file data_mapping s
  = (Ret (Some (met_record (met_file_data (PyStr.readlines data))
                           data_mapping)), s).
Proof.
  intros Hf. unfold extract_from_met, try_except, bind, open_readlines.
  now rewrite Hf.
Qed.

End MetExtractor.

(* ================================================================== *)
(** ** The Folder Processor *)

Section FolderProcessor.

Variable fromstring : string -> string + Element.
Variable find : Element -> string -> string + option Element.
Variable w : World.
Variables (folder_path : string) (xml_mapping : mapping).

Lemma collect_app all_records rec :
  collect all_records rec = all_records ++ collect [] rec.
Proof.
  unfold collect. destruct rec as [[|x r]|]; simpl;
    now rewrite ?app_nil_r.
Qed.

(** One turn of the loop: the file's contribution is appended, lines are
    added to the console, nothing is written. *)
Lemma visit_frame all_records filename s :
  exists out,
    visit fromstring find w folder_path xml_mapping all_records filename s
    = (extend all_records
              (contribution fromstring find w folder_path xml_mapping
                            filename),
       {| stdout := stdout s ++ out; excel := excel s |}).
Proof.
  unfold contribution, visit.
  destruct (PyStr.endswith (PyStr.lower filename) ".xml").
  - unfold bind, print.
    match goal with
    | |- context [extract_from_xml _ _ _ ?f ?m ?s1] =>
        destruct (extract_from_xml_frame fromstring find w f m s1)
          as [out1 ->]
    end.
    match goal with
    | |- context [extract_from_xml _ _ _ ?f ?m
                    {| stdout := stdout init ++ ?l; excel := ?e |}] =>
        destruct (extract_from_xml_frame fromstring find w f m
                    {| stdout := stdout init ++ l; excel := e |})
          as [out2 ->]
    end.
    cbn [fst stdout excel].
    match goal with
    | |- context [fst ?x] => destruct (fst x) as [rec|e]
    end.
    + eexists. unfold ret. cbn [fst extend]. rewrite <- app_assoc.
      now rewrite (collect_app all_records rec).
    + eexists. cbn [fst extend]. now rewrite <- app_assoc.
  - exists []. unfold bind, ret. cbn [fst extend collect truthy].
    rewrite !app_nil_r. now destruct s.
Qed.

(** The loop: it raises when some file does, collects every file's
    contribution otherwise, and never writes. *)
Lemma for_each_file_frame names all_records s :
  exists out o,
    for_each_file fromstring find w folder_path xml_mapping names
                  all_records s
    = (o, {| stdout := stdout s ++ out; excel := excel s |})
    /\ (any_raises fromstring find w folder_path xml_mapping names = false ->
        o = Ret (all_records
                 ++ all_contributed fromstring find w folder_path
                                    xml_mapping names))
    /\ (any_raises fromstring find w folder_path xml_mapping names = true ->
        raises o = true).
Proof.
  revert all_records s.
  induction names as [|filename names IH]; intros all_records s.
  - exists [], (Ret all_records). cbn. rewrite !app_nil_r.
    repeat split; [now destruct s|discriminate].
  - cbn [for_each_file]. unfold bind.
    destruct (visit_frame all_records filename s) as [out1 ->].
    unfold any_raises, all_contributed. cbn [existsb flat_map].
    fold (any_raises fromstring find w folder_path xml_mapping names).
    fold (all_contributed fromstring find w folder_path xml_mapping names).
    destruct (contribution fromstring find w folder_path xml_mapping
                           filename) as [rs|e];
      cbn [extend raises contributed].
    + destruct (IH (all_records ++ rs)
                   {| stdout := stdout s ++ out1; excel := excel s |})
        as (out2 & o & -> & Hok & Hraise).
      exists (out1 ++ out2), o. cbn [stdout excel].
      rewrite <- app_assoc. repeat split.
      * intros H. rewrite (Hok H). now rewrite <- app_assoc.
      * exact Hraise.
    + exists out1, (Raise e). repeat split; discriminate.
Qed.

End FolderProcessor.

Section Runs.

Variable fromstring : string -> string + Element.
Variable find : Element -> string -> string + option Element.

(** The loop of [process_folder] leaves the disk alone; its result is
    that of [for_each_file] on the listing. *)
Lemma scan_frame w folder_path xml_mapping s :
  exists out o,
    scan fromstring find w folder_path xml_mapping s
    = (o, {| stdout := stdout s ++ out; excel := excel s |})
    /\ match listdir w folder_path with
       | Raise e => o = Raise e
       | Ret names =>
           (any_raises fromstring find w folder_path xml_mapping names
            = false ->
            o = Ret (all_contributed fromstring find w folder_path
                                     xml_mapping names))
           /\ (any_raises fromstring find w folder_path xml_mapping names
               = true ->
               raises o = true)
       end.
Proof.
  unfold scan, bind, print, os_listdir.
  destruct (listdir w folder_path) as [names|e].
  - match goal with
    | |- context [for_each_file _ _ _ _ _ _ _ ?s1] =>
        destruct (for_each_file_frame fromstring find w folder_path
                    xml_mapping names [] s1)
          as (out & o & -> & Hok & Hraise)
    end.
    cbn [stdout excel]. rewrite <- app_assoc.
    eexists _, o. repeat split; assumption.
  - eexists _, (Raise e). split; reflexivity.
Qed.

(** A run adds lines to the console and the sheets of [exported] to the
    disk, whatever the state it starts in. *)
Lemma process_folder_frame w folder_path xml_mapping met_mapping out s :
  exists log o,
    process_folder fromstring find w folder_path xml_mapping met_mapping
                   out s
    = (o, {| stdout := stdout s ++ log;
             excel := excel s
                      ++ exported fromstring find w folder_path xml_mapping
                                  met_mapping out |}).
Proof.
  unfold process_folder, bind at 1.
  destruct (scan_frame w folder_path xml_mapping s)
    as (log & o & -> & Ho).
  unfold exported.
  destruct (listdir w folder_path) as [names|e].
  - destruct Ho as [Hok Hraise].
    destruct (any_raises fromstring find w folder_path xml_mapping names).
    + specialize (Hraise eq_refl). destruct o as [rs|e]; [discriminate|].
      exists log, (Raise e). now rewrite (app_nil_r (excel s)).
    + rewrite (Hok eq_refl).
      destruct (all_contributed fromstring find w folder_path xml_mapping
                                names) as [|r rs].
      * unfold export, print. cbn [stdout excel].
        rewrite (app_nil_r (excel s)), <- app_assoc.
        eexists _, _. reflexivity.
      * unfold export, bind, to_excel, print. cbn [stdout excel].
        rewrite <- app_assoc.
        eexists _, _. reflexivity.
  - subst o. exists log, (Raise e). now rewrite (app_nil_r (excel s)).
Qed.

Lemma any_raises_perm w folder_path xml_mapping names1 names2 :
  Permutation names1 names2 ->
  any_raises fromstring find w folder_path xml_mapping names1
  = any_raises fromstring find w folder_path xml_mapping names2.
Proof.
  unfold any_raises.
  induction 1 as [|x l l' _ IH|x y l|l l' l'' _ IH1 _ IH2]; cbn [existsb].
  - reflexivity.
  - now rewrite IH.
  - now rewrite !orb_assoc, (orb_comm (raises _) (raises _)).
  - now rewrite IH1.
Qed.

Lemma all_contributed_perm w folder_path xml_mapping names1 names2 :
  Permutation names1 names2 ->
  Permutation
    (all_contributed fromstring find w folder_path xml_mapping names1)
    (all_contributed fromstring find w folder_path xml_mapping names2).
Proof. intros P. unfold all_contributed. now rewrite P. Qed.

End Runs.

(* ================================================================== *)
(** ** Properties of the specification *)

(** Well-formedness of a literal dictionary. *)
Ltac literal_wf :=
  unfold PyDict.wf, PyDict.keys; cbn [map fst];
  repeat (constructor; [cbn [In]; intuition discriminate|]);
  constructor.

(** Membership in a literal list of pairs, one case per item. *)
Ltac each_item H :=
  cbn [In] in H;
  repeat (destruct H as [H|H]; [injection H as <- <-|]);
  try contradiction.

(** C1.  On a readable, well-formed XML file and a mapping whose locators
    are path expressions, [extract_from_xml] returns a Record with exactly
    the mapping's columns; a column whose path selects an element holds
    that element's [text] as it is, a column whose path selects nothing
    holds [None].  The console and the disk are left as they were. *)
Theorem extract_from_xml_record
        (fromstring : string -> string + Element)
        (find : Element -> string -> string + option Element)
        (w : World) (xml_file data : string) (root : Element)
        (data_mapping : mapping) (s : Sys) :
  file w xml_file = Content data ->
  fromstring data = inr root ->
  PyDict.wf data_mapping ->
  (forall c p, In (c, p) data_mapping -> exists r, find root p = inr r) ->
  exists rec,
    extract_from_xml fromstring find w xml_file data_mapping s
    = (Ret (Some rec), s)
    /\ PyDict.keys rec = PyDict.keys data_mapping
    /\ forall c p, In (c, p) data_mapping ->
         (forall e, find root p = inr (Some e) ->
                    PyDict.get c rec = Some (text e))
         /\ (find root p = inr None -> PyDict.get c rec = Some None).
Proof.
  intros Hf Hp Hwf Hv.
  eexists. split; [|split].
  - now apply extract_from_xml_ok with (data := data) (root := root).
  - apply PyDictFacts.keys_map_items.
  - intros c p I.
    rewrite (PyDictFacts.get_map_items (resolve find root) _ c p Hwf I).
    unfold resolve. split.
    + now intros e ->.
    + now intros ->.
Qed.

Lemma extract_from_xml_record_witness :
  exists rec,
    extract_from_xml SimpleET.fromstring SimpleET.find Examples.w_one
                     "in/a.xml" Examples.xml_mapping init
    = (Ret (Some rec), init)
    /\ PyDict.keys rec = PyDict.keys Examples.xml_mapping
    /\ forall c p, In (c, p) Examples.xml_mapping ->
         (forall e, SimpleET.find
                      Examples.a_root p = inr (Some e) ->
                    PyDict.get c rec = Some (text e))
         /\ (SimpleET.find Examples.a_root p = inr None ->
             PyDict.get c rec = Some None).
Proof.
  apply (extract_from_xml_record SimpleET.fromstring SimpleET.find
           Examples.w_one "in/a.xml" Examples.a_xml).
  - reflexivity.
  - reflexivity.
  - literal_wf.
  - intros c p H. each_item H; eexists; reflexivity.
Defined.

(** C10.  A path that selects an element without text gives [None], the
    value an unmatched path gives: two documents that differ only in that
    some paths select an empty element in the first and nothing in the
    second yield the same Record. *)
Theorem empty_element_like_unmatched
        (fromstring : string -> string + Element)
        (find : Element -> string -> string + option Element)
        (w : World) (file1 file2 data1 data2 : string) (root1 root2 : Element)
        (data_mapping : mapping) (s : Sys) :
  file w file1 = Content data1 -> fromstring data1 = inr root1 ->
  file w file2 = Content data2 -> fromstring data2 = inr root2 ->
  PyDict.wf data_mapping ->
  (forall c p, In (c, p) data_mapping ->
     (exists e, find root1 p = inr (Some e) /\ text e = None
                /\ find root2 p = inr None)
     \/ (find root1 p = find root2 p /\ exists r, find root1 p = inr r)) ->
  exists rec,
    extract_from_xml fromstring find w file1 data_mapping s
    = (Ret (Some rec), s)
    /\ extract_from_xml fromstring find w file2 data_mapping s
       = (Ret (Some rec), s)
    /\ forall c p, In (c, p) data_mapping ->
         (forall e, find root1 p = inr (Some e) -> text e = None ->
                    PyDict.get c rec = Some None)
         /\ (find root2 p = inr None -> PyDict.get c rec = Some None).
Proof.
  intros Hf1 Hp1 Hf2 Hp2 Hwf H.
  assert (forall c p, In (c, p) data_mapping ->
                      resolve find root1 p = resolve find root2 p) as Hres.
  { intros c p I. unfold resolve.
    destruct (H c p I) as [(e & -> & He & ->)|[-> _]]; [exact He|reflexivity]. }
  exists (map (fun '(c, p) => (c, resolve find root2 p)) data_mapping).
  split; [|split].
  - rewrite (extract_from_xml_ok fromstring find w file1 data1 root1); trivial.
    + assert (map (fun '(c, p) => (c, resolve find root1 p)) data_mapping
              = map (fun '(c, p) => (c, resolve find root2 p)) data_mapping)
        as ->; [|reflexivity].
      apply map_ext_in. intros [c p] I. now rewrite (Hres c p I).
    + intros c p I. destruct (H c p I) as [(e & -> & _)|[_ Hr]]; eauto.
  - apply (extract_from_xml_ok fromstring find w file2 data2 root2); trivial.
    intros c p I.
    destruct (H c p I) as [(e & _ & _ & ->)|[<- Hr]]; eauto.
  - intros c p I.
    rewrite (PyDictFacts.get_map_items (resolve find root2) _ c p Hwf I).
    rewrite <- (Hres c p I). unfold resolve. split.
    + intros e -> E. cbn [text_or_None]. now rewrite E.
    + intros E. destruct (H c p I) as [(e & -> & E' & _)|[-> _]].
      * cbn [text_or_None]. now rewrite E'.
      * now rewrite E.
Qed.

Lemma empty_element_like_unmatched_witness :
  exists rec,
    extract_from_xml SimpleET.fromstring SimpleET.find Examples.w_empty
                     "in/c.xml" Examples.xml_mapping init
    = (Ret (Some rec), init)
    /\ extract_from_xml SimpleET.fromstring SimpleET.find Examples.w_empty
                        "in/d.xml" Examples.xml_mapping init
       = (Ret (Some rec), init)
    /\ PyDict.get "Full Name" rec = Some None.
Proof.
  destruct (empty_element_like_unmatched
              SimpleET.fromstring SimpleET.find Examples.w_empty
              "in/c.xml" "in/d.xml" Examples.c_xml Examples.d_xml
              Examples.c_root Examples.d_root Examples.xml_mapping init)
    as (rec & H1 & H2 & H3).
  - reflexivity.
  - reflexivity.
  - reflexivity.
  - reflexivity.
  - literal_wf.
  - intros c p H. each_item H.
    + left. eexists. repeat split; reflexivity.
    + right. split; [reflexivity|eexists; reflexivity].
    + right. split; [reflexivity|eexists; reflexivity].
  - exists rec. repeat split; trivial.
    apply (H3 "Full Name" "./details/name"); [now left|reflexivity].
Defined.

(** C4.  An XML file that is readable but not well-formed: the
    [ParseError] is caught inside [extract_from_xml], which prints one
    error line naming the file and the parser's message and returns
    [None]; in the loop of [process_folder] the file adds no record and the
    remaining entries are processed as if it had not been there. *)
Theorem malformed_xml_is_skipped
        (fromstring : string -> string + Element)
        (find : Element -> string -> string + option Element)
        (w : World) (folder_path : string) (xml_mapping : mapping)
        (filename data msg : string) (rest : list string)
        (all_records : list record) (s : Sys) :
  PyStr.endswith (PyStr.lower filename) ".xml" = true ->
  file w (PyStr.os_path_join folder_path filename) = Content data ->
  fromstring data = inl msg ->
  let xml_file := PyStr.os_path_join folder_path filename in
  let error :=
    "[ERROR] Failed to parse XML file '" +++ xml_file +++ "': " +++ msg in
  extract_from_xml fromstring find w xml_file xml_mapping s
  = (Ret None, {| stdout := stdout s ++ [error]; excel := excel s |})
  /\ for_each_file fromstring find w folder_path xml_mapping
                   (filename :: rest) all_records s
     = for_each_file fromstring find w folder_path xml_mapping rest
                     all_records
                     {| stdout := stdout s
                                  ++ ["  -> Extracting XML: " +++ filename;
                                      error];
                        excel := excel s |}.
Proof.
  intros Hx Hf Hp xml_file error. split.
  - now apply extract_from_xml_malformed with (data := data).
  - cbn [for_each_file]. unfold bind at 1. unfold visit.
    rewrite Hx. unfold bind, print.
    rewrite (extract_from_xml_malformed fromstring find w _ data msg)
      by assumption.
    cbn [stdout excel]. unfold ret. cbn [collect truthy].
    now rewrite <- app_assoc.
Qed.

Lemma malformed_xml_is_skipped_witness :
  extract_from_xml SimpleET.fromstring SimpleET.find Examples.w_mixed
                   "in/bad.xml" Examples.xml_mapping init
  = (Ret None,
     {| stdout := ["[ERROR] Failed to parse XML file 'in/bad.xml': mismatched tag"];
        excel := [] |})
  /\ for_each_file SimpleET.fromstring SimpleET.find Examples.w_mixed "in"
                   Examples.xml_mapping ["bad.xml"; "C.XML"] [Examples.ann]
                   init
     = for_each_file SimpleET.fromstring SimpleET.find Examples.w_mixed "in"
                     Examples.xml_mapping ["C.XML"] [Examples.ann]
                     {| stdout :=
                          ["  -> Extracting XML: bad.xml";
                           "[ERROR] Failed to parse XML file 'in/bad.xml': mismatched tag"];
                        excel := [] |}.
Proof.
  apply (malformed_xml_is_skipped SimpleET.fromstring SimpleET.find
           Examples.w_mixed "in" Examples.xml_mapping "bad.xml"
           Examples.bad_xml "mismatched tag" ["C.XML"] [Examples.ann] init);
    reflexivity.
Defined.

(** C5.  On a readable key-value file [extract_from_met] returns a Record
    with exactly the mapping's columns, each holding what [file_data.get]
    gives for its key, where [file_data] is read off the lines as follows.
    A line [a:b] whose [a] holds no colon defines the key [strip a] with
    the value [strip b]; the last line defining a key decides its value;
    a key that no line defines is absent, hence [None] in the Record; a
    line without a colon defines nothing; [strip] removes white space at
    both ends and nothing else. *)
Theorem extract_from_met_record
        (w : World) (met_file data : string) (data_mapping : mapping)
        (s : Sys) :
  file w met_file = Content data ->
  PyDict.wf data_mapping ->
  let lines := PyStr.readlines data in
  let file_data := met_file_data lines in
  exists rec,
    extract_from_met w met_file data_mapping s = (Ret (Some rec), s)
    /\ PyDict.keys rec = PyDict.keys data_mapping
    /\ (forall c k, In (c, k) data_mapping ->
          PyDict.get c rec = Some (PyDict.get k file_data))
    /\ (forall before a b after,
          lines = before ++ (a +++ ":" +++ b) :: after ->
          PyStr.contains ":" a = false ->
          (forall l a' b', In l after -> l = a' +++ ":" +++ b' ->
                           PyStr.contains ":" a' = false ->
                           PyStr.strip a' <> PyStr.strip a) ->
          PyDict.get (PyStr.strip a) file_data = Some (PyStr.strip b))
    /\ (forall k,
          (forall l a b, In l lines -> l = a +++ ":" +++ b ->
                         PyStr.contains ":" a = false ->
                         PyStr.strip a <> k) ->
          PyDict.get k file_data = None)
    /\ (forall fd l, PyStr.contains ":" l = false -> met_line fd l = fd)
    /\ (forall t,
          (exists l r, t = l +++ PyStr.strip t +++ r
                       /\ PyStr.all_space l = true
                       /\ PyStr.all_space r = true)
          /\ (forall c, PyStr.first_char (PyStr.strip t) = Some c ->
                        PyStr.isspace c = false)
          /\ (forall c, PyStr.last_char (PyStr.strip t) = Some c ->
                        PyStr.isspace c = false)).
Proof.
  intros Hf Hwf lines file_data.
  exists (map (fun '(c, k) => (c, PyDict.get k file_data)) data_mapping).
  repeat apply conj.
  - rewrite (extract_from_met_ok w met_file data) by exact Hf.
    fold lines. fold file_data. now rewrite met_record_wf.
  - apply PyDictFacts.keys_map_items.
  - intros c k I.
    apply (PyDictFacts.get_map_items (fun k => PyDict.get k file_data));
      assumption.
  - intros before a b after E C H. unfold file_data. rewrite E.
    apply get_met_file_data_last.
    + now apply PyStrFacts.partition_first.
    + intros l I. apply line_key_not. intros a' b' El Cl.
      exact (H l a' b' I El Cl).
  - intros k H. apply get_met_file_data_never.
    intros l I. apply line_key_not. intros a b El Cl.
    exact (H l a b I El Cl).
  - intros fd l. apply met_line_nosep.
  - intros t. apply PyStrFacts.strip_spec.
Qed.

Lemma extract_from_met_record_witness :
  exists rec,
    extract_from_met Examples.w_mixed "in/b.met" Examples.met_mapping init
    = (Ret (Some rec), init)
    /\ PyDict.get "Full Name" rec = Some (Some "Bob")
    /\ PyDict.get "Age" rec = Some (Some "25:00")
    /\ PyDict.get "Email Address" rec = Some None.
Proof.
  destruct (extract_from_met_record Examples.w_mixed "in/b.met"
              Examples.b_met Examples.met_mapping init)
    as (rec & H & _ & G & _).
  - reflexivity.
  - literal_wf.
  - exists rec. split; [exact H|]. repeat split.
    + apply (G "Full Name" "Full Name"). cbn [In Examples.met_mapping]. tauto.
    + apply (G "Age" "Age"). cbn [In Examples.met_mapping]. tauto.
    + apply (G "Email Address" "Email Address").
      cbn [In Examples.met_mapping]. tauto.
Defined.

Section Unchanged.

Variable fromstring : string -> string + Element.
Variable find : Element -> string -> string + option Element.
Variables (w1 w2 : World) (folder_path : string) (xml_mapping : mapping).
Hypothesis same_files : forall p, file w1 p = file w2 p.

(** What a file contributes depends on the world through its files
    only. *)
Lemma contribution_ext filename :
  contribution fromstring find w1 folder_path xml_mapping filename
  = contribution fromstring find w2 folder_path xml_mapping filename.
Proof.
  unfold contribution, visit, extract_from_xml, ET_parse.
  now rewrite same_files.
Qed.

Lemma any_raises_ext names :
  any_raises fromstring find w1 folder_path xml_mapping names
  = any_raises fromstring find w2 folder_path xml_mapping names.
Proof.
  unfold any_raises. induction names as [|f names IH]; cbn [existsb].
  - reflexivity.
  - now rewrite IH, contribution_ext.
Qed.

Lemma all_contributed_ext names :
  all_contributed fromstring find w1 folder_path xml_mapping names
  = all_contributed fromstring find w2 folder_path xml_mapping names.
Proof.
  unfold all_contributed. apply flat_map_ext.
  intros f. now rewrite contribution_ext.
Qed.

End Unchanged.

Lemma set_not_nil {V} k (v : V) d : PyDict.set k v d <> [].
Proof.
  destruct d as [|[k' v'] d]; simpl; [discriminate|].
  destruct (String.eqb k' k); discriminate.
Qed.

(** A Record is empty only when the mapping is. *)
Lemma xml_fields_not_nil find root items rec r s :
  fst (xml_fields find root items rec s) = Ret r ->
  rec <> [] \/ items <> [] -> r <> [].
Proof.
  revert rec. induction items as [|[c p] items IH]; intros rec; simpl.
  - intros [= <-] [H|H]; [exact H|congruence].
  - unfold bind, Element_find.
    destruct (find root p) as [msg|element]; simpl; [discriminate|].
    intros H _. apply (IH _ H). left. apply set_not_nil.
Qed.

Lemma extract_from_xml_not_nil fromstring find w xml_file data_mapping r s s' :
  extract_from_xml fromstring find w xml_file data_mapping s
  = (Ret (Some r), s') ->
  data_mapping <> [] -> r <> [].
Proof.
  unfold extract_from_xml, try_except, bind, ET_parse.
  destruct (file w xml_file) as [cause|data]; simpl; [discriminate|].
  destruct (fromstring data) as [msg|root]; simpl; [discriminate|].
  destruct (xml_fields find root data_mapping [] s) as [[r'|[]] s1] eqn:E;
    simpl; try discriminate.
  intros [= <- <-] N.
  apply (xml_fields_not_nil find root data_mapping [] r' s).
  - now rewrite E.
  - now right.
Qed.

(** Each row of a data frame has one cell per column, the record's value
    under that column. *)
Lemma pd_DataFrame_rows all_records cols :
  Forall2
    (fun r row =>
       List.length row = List.length cols
       /\ forall i c, nth_error cols i = Some c ->
                      nth_error row i = Some (cell_of r c))
    all_records (rows (pd_DataFrame all_records cols)).
Proof.
  cbn [rows pd_DataFrame].
  induction all_records as [|r rs IH]; cbn [map]; constructor; [|exact IH].
  split.
  - apply length_map.
  - intros i c H. now rewrite nth_error_map, H.
Qed.

(** C3.  When the loop of [process_folder] has collected at least one
    record, the run writes one sheet whose columns are the keys of the XML
    mapping followed by the keys of the Key-Value mapping that are not
    among them.  That list is a function of the two mappings alone: the
    folder, its files and the order of the listing do not enter it.  Every
    collected record gives one row with one cell per column; the cell is
    the record's value under the column, blank when the record lacks the
    column. *)
Theorem exported_columns_union
        (fromstring : string -> string + Element)
        (find : Element -> string -> string + option Element)
        (w : World) (folder_path : string) (xml_mapping met_mapping : mapping)
        (out : string) (s : Sys) (all_records : list record) :
  PyDict.wf xml_mapping ->
  PyDict.wf met_mapping ->
  fst (scan fromstring find w folder_path xml_mapping s) = Ret all_records ->
  all_records <> [] ->
  exists df,
    excel (snd (process_folder fromstring find w folder_path xml_mapping
                               met_mapping out s))
    = excel s ++ [(out, df)]
    /\ columns df
       = union_columns (PyDict.keys xml_mapping) (PyDict.keys met_mapping)
    /\ Forall2
         (fun r row =>
            List.length row = List.length (columns df)
            /\ forall i c, nth_error (columns df) i = Some c ->
                 nth_error row i = Some (cell_of r c)
                 /\ (PyDict.get c r = None -> nth_error row i = Some None))
         all_records (rows df).
Proof.
  intros Hx Hm Hscan Hne.
  exists (pd_DataFrame all_records (all_columns xml_mapping met_mapping)).
  split; [|split].
  - unfold process_folder, bind at 1.
    destruct (scan_frame fromstring find w folder_path xml_mapping s)
      as (log & o & E & _).
    rewrite E in Hscan |- *. cbn [fst] in Hscan. subst o.
    destruct all_records as [|r rs]; [congruence|].
    unfold export, bind, to_excel, print. reflexivity.
  - cbn [columns pd_DataFrame]. unfold all_columns, union_columns.
    now apply PyDictFacts.keys_fromkeys_app.
  - eapply Forall2_impl; [|apply pd_DataFrame_rows].
    cbn [columns pd_DataFrame]. intros r row [L H]. split; [exact L|].
    intros i c I. split; [now apply H|].
    intros G. rewrite (H i c I). unfold cell_of. now rewrite G.
Qed.

Lemma exported_columns_union_witness :
  exists df,
    excel (snd (Examples.run Examples.w_mixed Examples.xml_mapping
                             [("Age", "Age"); ("City", "City")]))
    = [("out.xlsx", df)]
    /\ columns df = ["Full Name"; "Age"; "Email Address"; "City"]
    /\ Forall2
         (fun r row =>
            List.length row = List.length (columns df)
            /\ forall i c, nth_error (columns df) i = Some c ->
                 nth_error row i = Some (cell_of r c)
                 /\ (PyDict.get c r = None -> nth_error row i = Some None))
         [Examples.ann;
          [("Full Name", None); ("Age", None);
           ("Email Address", Some " c@x.com ")]]
         (rows df).
Proof.
  apply (exported_columns_union SimpleET.fromstring SimpleET.find
           Examples.w_mixed "in" Examples.xml_mapping
           [("Age", "Age"); ("City", "City")] "out.xlsx" init).
  - literal_wf.
  - literal_wf.
  - reflexivity.
  - discriminate.
Defined.

(** C7.  The loop of [process_folder] writes nothing.  After it, a run
    that collected no record prints the warning and still writes nothing;
    a run that collected records writes one sheet holding a row for each
    of them, once, and then prints the success line; a run whose loop
    raised writes nothing.  The write itself is one step of the model. *)
Theorem export_all_or_nothing
        (fromstring : string -> string + Element)
        (find : Element -> string -> string + option Element)
        (w : World) (folder_path : string) (xml_mapping met_mapping : mapping)
        (out : string) (s : Sys) :
  let run := process_folder fromstring find w folder_path xml_mapping
                            met_mapping out s in
  let s1 := snd (scan fromstring find w folder_path xml_mapping s) in
  excel s1 = excel s
  /\ match fst (scan fromstring find w folder_path xml_mapping s) with
     | Raise e => run = (Raise e, s1)
     | Ret [] =>
         run = (Ret tt,
                {| stdout :=
                     stdout s1
                     ++ [PyStr.nl
                         +++ "[WARNING] No valid data extracted from the provided folder."];
                   excel := excel s |})
     | Ret all_records =>
         let df := pd_DataFrame all_records
                                (all_columns xml_mapping met_mapping) in
         run = (Ret tt,
                {| stdout :=
                     stdout s1
                     ++ [PyStr.nl +++ "[SUCCESS] Data exported to '"
                         +++ out +++ "'"];
                   excel := excel s ++ [(out, df)] |})
         /\ List.length (rows df) = List.length all_records
     end.
Proof.
  intros run s1.
  assert (run
          = let (o, s') := scan fromstring find w folder_path xml_mapping s in
            match o with
            | Ret a => export a xml_mapping met_mapping out s'
            | Raise e => (Raise e, s')
            end) as Hrun by reflexivity.
  clearbody run. subst s1.
  destruct (scan_frame fromstring find w folder_path xml_mapping s)
    as (log & o & E & _).
  rewrite E in *. subst run. cbn [fst snd excel stdout].
  split; [reflexivity|].
  destruct o as [[|r rs]|e].
  - reflexivity.
  - split; [reflexivity|]. cbn [rows pd_DataFrame]. apply length_map.
  - reflexivity.
Qed.

(** C9.  Two runs over the same files, the same mappings and the same
    destination, the directory being listed in any two orders, each add to
    the disk the same sheets up to the order of the rows: both none, or
    one each with the same destination, the same columns and the same rows
    as multisets.  The second run may start where the first ended. *)
Theorem process_folder_idempotent
        (fromstring : string -> string + Element)
        (find : Element -> string -> string + option Element)
        (w1 w2 : World) (folder_path : string)
        (xml_mapping met_mapping : mapping) (out : string) (s1 s2 : Sys) :
  (forall p, file w1 p = file w2 p) ->
  same_listing (listdir w1 folder_path) (listdir w2 folder_path) ->
  exists t1 t2,
    excel (snd (process_folder fromstring find w1 folder_path xml_mapping
                               met_mapping out s1))
    = excel s1 ++ t1
    /\ excel (snd (process_folder fromstring find w2 folder_path xml_mapping
                                  met_mapping out s2))
       = excel s2 ++ t2
    /\ same_export t1 t2.
Proof.
  intros Hfiles Hlist.
  exists (exported fromstring find w1 folder_path xml_mapping met_mapping out),
         (exported fromstring find w2 folder_path xml_mapping met_mapping out).
  split; [|split].
  - destruct (process_folder_frame fromstring find w1 folder_path xml_mapping
                met_mapping out s1) as (log & o & ->). reflexivity.
  - destruct (process_folder_frame fromstring find w2 folder_path xml_mapping
                met_mapping out s2) as (log & o & ->). reflexivity.
  - unfold exported, same_listing in *.
    destruct (listdir w1 folder_path) as [n1|e1],
             (listdir w2 folder_path) as [n2|e2];
      try contradiction; try constructor.
    rewrite (any_raises_ext fromstring find w1 w2 folder_path xml_mapping
               Hfiles n1).
    rewrite (any_raises_perm fromstring find w2 folder_path xml_mapping
               n1 n2 Hlist).
    destruct (any_raises fromstring find w2 folder_path xml_mapping n2);
      [constructor|].
    rewrite (all_contributed_ext fromstring find w1 w2 folder_path
               xml_mapping Hfiles n1).
    pose proof (all_contributed_perm fromstring find w2 folder_path
                  xml_mapping n1 n2 Hlist) as P.
    destruct (all_contributed fromstring find w2 folder_path xml_mapping n1)
      as [|r1 rs1],
      (all_contributed fromstring find w2 folder_path xml_mapping n2)
      as [|r2 rs2].
    + constructor.
    + now apply Permutation_nil_cons in P.
    + apply Permutation_sym in P. now apply Permutation_nil_cons in P.
    + constructor; [|constructor]. cbn [fst snd columns rows pd_DataFrame].
      repeat split. now apply Permutation_map.
Qed.

Lemma process_folder_idempotent_witness :
  exists t1 t2,
    excel (snd (Examples.run Examples.w_mixed Examples.xml_mapping
                             Examples.met_mapping))
    = [] ++ t1
    /\ excel (snd (process_folder SimpleET.fromstring SimpleET.find
                     (mkWorld (listdir Examples.w_mixed_rev)
                              (file Examples.w_mixed))
                     "in" Examples.xml_mapping Examples.met_mapping "out.xlsx"
                     (snd (Examples.run Examples.w_mixed Examples.xml_mapping
                                        Examples.met_mapping))))
       = excel (snd (Examples.run Examples.w_mixed Examples.xml_mapping
                                  Examples.met_mapping)) ++ t2
    /\ same_export t1 t2.
Proof.
  apply (process_folder_idempotent SimpleET.fromstring SimpleET.find
           Examples.w_mixed
           (mkWorld (listdir Examples.w_mixed_rev) (file Examples.w_mixed))
           "in" Examples.xml_mapping Examples.met_mapping "out.xlsx" init).
  - reflexivity.
  - cbn. apply Permutation_rev.
Defined.

(** C2.  A folder holding [a.xml], [b.met], [notes.txt], [bad.xml] and
    [C.XML]: the two well-formed XML files, whatever the case of their
    suffix, give the two rows of the sheet; [notes.txt] and [b.met] leave
    no line on the console and no row, although [extract_from_met] reads
    Bob's record from [b.met].  The loop has no [.met] branch. *)
Theorem met_entry_is_ignored :
  Examples.run Examples.w_mixed Examples.xml_mapping Examples.met_mapping
  = (Ret tt,
     {| stdout :=
          [PyStr.nl +++ "[INFO] Scanning folder: in";
           "  -> Extracting XML: a.xml";
           "  -> Extracting XML: bad.xml";
           "[ERROR] Failed to parse XML file 'in/bad.xml': mismatched tag";
           "  -> Extracting XML: C.XML";
           PyStr.nl +++ "[SUCCESS] Data exported to 'out.xlsx'"];
        excel :=
          [("out.xlsx",
            {| columns := ["Full Name"; "Age"; "Email Address"];
               rows := [[Some "Ann"; Some "30"; Some "a@x.com"];
                        [None; None; Some " c@x.com "]] |})] |})
  /\ Examples.run Examples.w_met_only Examples.xml_mapping
                  Examples.met_mapping
     = (Ret tt,
        {| stdout :=
             [PyStr.nl +++ "[INFO] Scanning folder: in";
              PyStr.nl
              +++ "[WARNING] No valid data extracted from the provided folder."];
           excel := [] |})
  /\ extract_from_met Examples.w_met_only "in/b.met" Examples.met_mapping init
     = (Ret (Some [("Full Name", Some "Bob"); ("Age", Some "25:00");
                   ("Email Address", None)]), init).
Proof. repeat split. Qed.

(** C6.  A folder whose second entry [locked.xml] cannot be opened: the
    [OSError] of [ET.parse] is not a [ParseError], nothing catches it, and
    the run ends with it; no error line is printed, [C.XML] is never
    looked at and the record of [a.xml] is lost.  [extract_from_met], on
    the same file, catches the error, prints it and returns [None]. *)
Theorem unreadable_xml_aborts_run :
  Examples.run Examples.w_denied Examples.xml_mapping Examples.met_mapping
  = (Raise (OSError "[Errno 13] Permission denied"),
     {| stdout :=
          [PyStr.nl +++ "[INFO] Scanning folder: in";
           "  -> Extracting XML: a.xml";
           "  -> Extracting XML: locked.xml"];
        excel := [] |})
  /\ extract_from_met Examples.w_denied "in/locked.xml" Examples.met_mapping
                      init
     = (Ret None,
        {| stdout :=
             ["[ERROR] Failed to read .met file 'in/locked.xml': [Errno 13] Permission denied"];
           excel := [] |}).
Proof. repeat split. Qed.

(** C8, as stated, fails: with an empty XML mapping the extractor returns
    a Record that is not [None] (the empty one), and [if record:] drops
    it; the run ends with the warning and no sheet. *)
Lemma empty_record_is_dropped :
  extract_from_xml SimpleET.fromstring SimpleET.find Examples.w_one
                   "in/a.xml" [] init
  = (Ret (Some []), init)
  /\ collect [] (Some []) <> [] ++ [[]]
  /\ Examples.run Examples.w_one [] Examples.met_mapping
     = (Ret tt,
        {| stdout :=
             [PyStr.nl +++ "[INFO] Scanning folder: in";
              "  -> Extracting XML: a.xml";
              PyStr.nl
              +++ "[WARNING] No valid data extracted from the provided folder."];
           excel := [] |}).
Proof. repeat split. discriminate. Qed.

(** C8, amended.  For an entry sent to the XML extractor, the loop appends
    the Record the extractor returned when it has at least one column, and
    leaves the result sequence as it was when the extractor returned
    [None] or the empty Record; the empty Record is returned only for an
    empty mapping. *)
Theorem nonempty_record_is_appended
        (fromstring : string -> string + Element)
        (find : Element -> string -> string + option Element)
        (w : World) (folder_path : string) (xml_mapping : mapping)
        (all_records : list record) (filename : string)
        (rec : option record) (s s' : Sys) :
  PyStr.endswith (PyStr.lower filename) ".xml" = true ->
  extract_from_xml fromstring find w
                   (PyStr.os_path_join folder_path filename) xml_mapping
                   {| stdout := stdout s
                                ++ ["  -> Extracting XML: " +++ filename];
                      excel := excel s |}
  = (Ret rec, s') ->
  visit fromstring find w folder_path xml_mapping all_records filename s
  = (Ret (match rec with
          | Some (f :: r) => all_records ++ [f :: r]
          | Some [] => all_records
          | None => all_records
          end), s')
  /\ (xml_mapping <> [] -> rec <> Some []).
Proof.
  intros Hx He. split.
  - unfold visit. rewrite Hx. unfold bind, print. rewrite He.
    unfold ret, collect, truthy. now destruct rec as [[|f r]|].
  - intros N ->.
    now apply (extract_from_xml_not_nil _ _ _ _ _ _ _ _ He N).
Qed.

Lemma nonempty_record_is_appended_witness :
  visit SimpleET.fromstring SimpleET.find Examples.w_one "in"
        Examples.xml_mapping [] "a.xml" init
  = (Ret [Examples.ann],
     {| stdout := ["  -> Extracting XML: a.xml"]; excel := [] |})
  /\ (Examples.xml_mapping <> [] -> Some Examples.ann <> Some []).
Proof.
  apply (nonempty_record_is_appended SimpleET.fromstring SimpleET.find
           Examples.w_one "in" Examples.xml_mapping [] "a.xml"
           (Some Examples.ann) init);
    reflexivity.
Defined.

(* ================================================================== *)
(** ** Further properties of the script *)

Module MoreStrFacts.
Import PyStr.

Lemma length_append (a b : string) :
  String.length (a +++ b) = String.length a + String.length b.
Proof. induction a; simpl; congruence. Qed.

Lemma length_lower s : String.length (lower s) = String.length s.
Proof. induction s; simpl; congruence. Qed.

Lemma lower_append (a b : string) : lower (a +++ b) = lower a +++ lower b.
Proof. induction a; simpl; congruence. Qed.

Lemma substring_all s : substring 0 (String.length s) s = s.
Proof. induction s; simpl; congruence. Qed.

Lemma substring_skip a b :
  substring (String.length a) (String.length b) (a +++ b) = b.
Proof. induction a; simpl; [apply substring_all|assumption]. Qed.

(** Whether a text ends with a suffix is decided by its last characters,
    as many as the suffix has. *)
Lemma endswith_append a b suffix :
  String.length b = String.length suffix ->
  endswith (a +++ b) suffix = String.eqb b suffix.
Proof.
  intros L. unfold endswith. rewrite length_append, <- L.
  replace (String.length a + String.length b - String.length b)
    with (String.length a) by lia.
  rewrite substring_skip.
  replace (String.length b <=? String.length a + String.length b) with true
    by (symmetry; apply Nat.leb_le; lia).
  reflexivity.
Qed.

Lemma endswith_short s suffix :
  String.length s < String.length suffix -> endswith s suffix = false.
Proof.
  intros L. unfold endswith.
  replace (String.length suffix <=? String.length s) with false
    by (symmetry; apply Nat.leb_gt; lia).
  reflexivity.
Qed.

End MoreStrFacts.

(** X5.  The loop looks at the last four characters of a name and at
    nothing else, whatever their case: a name [stem ++ ext] with a
    four-character [ext] is sent to the XML extractor exactly when [ext],
    in lower case, is [.xml]; the stem may be empty. *)
Theorem xml_suffix_any_case (stem ext : string) :
  String.length ext = 4 ->
  is_xml (stem +++ ext) = String.eqb (PyStr.lower ext) ".xml".
Proof.
  intros L. unfold is_xml. rewrite MoreStrFacts.lower_append.
  apply MoreStrFacts.endswith_append.
  now rewrite MoreStrFacts.length_lower.
Qed.

Lemma xml_suffix_any_case_witness :
  is_xml ("report.v2" +++ ".XmL") = String.eqb (PyStr.lower ".XmL") ".xml".
Proof. apply (xml_suffix_any_case "report.v2" ".XmL"). reflexivity. Defined.

(** X16.  A name of fewer than four characters is never sent to the XML
    extractor. *)
Theorem short_name_not_xml (filename : string) :
  String.length filename < 4 -> is_xml filename = false.
Proof.
  intros L. unfold is_xml. apply MoreStrFacts.endswith_short.
  now rewrite MoreStrFacts.length_lower.
Qed.

Lemma short_name_not_xml_witness : is_xml "xml" = false.
Proof. apply (short_name_not_xml "xml"). simpl. lia. Defined.

(** X1.  A key-value file that cannot be opened: [extract_from_met]
    catches the [IOError], prints one line naming the file and the cause,
    returns [None] and writes nothing. *)
Theorem extract_from_met_unreadable
        (w : World) (met_file cause : string) (data_mapping : mapping)
        (s : Sys) :
  file w met_file = Unreadable cause ->
  extract_from_met w met_file data_mapping s
  = (Ret None,
     {| stdout := stdout s
                  ++ ["[ERROR] Failed to read .met file '" +++ met_file
                      +++ "': " +++ cause];
        excel := excel s |}).
Proof.
  intros Hf. unfold extract_from_met, try_except, bind, open_readlines.
  now rewrite Hf.
Qed.

Lemma extract_from_met_unreadable_witness :
  extract_from_met Examples.w_denied "in/locked.xml" Examples.met_mapping init
  = (Ret None,
     {| stdout :=
          ["[ERROR] Failed to read .met file '" +++ "in/locked.xml"
           +++ "': " +++ "[Errno 13] Permission denied"];
        excel := [] |}).
Proof.
  apply (extract_from_met_unreadable Examples.w_denied "in/locked.xml"
           "[Errno 13] Permission denied" Examples.met_mapping init).
  reflexivity.
Defined.

Section MoreXml.

Variable fromstring : string -> string + Element.
Variable find : Element -> string -> string + option Element.
Variable w : World.

(** The first locator that is not a path expression ends the loop over
    the mapping. *)
Lemma xml_fields_syntax_error root before c p after msg rec s :
  (forall c' p', In (c', p') before -> exists r, find root p' = inr r) ->
  find root p = inl msg ->
  xml_fields find root (before ++ (c, p) :: after) rec s
  = (Raise (SyntaxError msg), s).
Proof.
  revert rec. induction before as [|[c0 p0] before IH]; intros rec Hv Hp.
  - cbn [app xml_fields]. unfold bind, Element_find. now rewrite Hp.
  - cbn [app xml_fields]. unfold bind, Element_find.
    destruct (Hv c0 p0 (or_introl eq_refl)) as [r ->]. cbn [raise ret].
    apply IH; [|exact Hp].
    intros c' p' I. apply (Hv c' p'). now right.
Qed.

(** A file that is not sent to the XML extractor: the turn of the loop
    changes nothing. *)
Lemma visit_not_xml folder_path xml_mapping all_records filename s :
  is_xml filename = false ->
  visit fromstring find w folder_path xml_mapping all_records filename s
  = (Ret all_records, s).
Proof.
  unfold is_xml, visit. intros ->. reflexivity.
Qed.

Lemma for_each_file_not_xml folder_path xml_mapping names all_records s :
  forallb (fun f => negb (is_xml f)) names = true ->
  for_each_file fromstring find w folder_path xml_mapping names all_records s
  = (Ret all_records, s).
Proof.
  induction names as [|f names IH]; cbn [forallb for_each_file].
  - reflexivity.
  - intros H. apply andb_true_iff in H. destruct H as [Hf Hn].
    apply negb_true_iff in Hf.
    unfold bind. rewrite (visit_not_xml _ _ _ _ _ Hf). now apply IH.
Qed.

(** The loop over a listing in two parts is the loop over the first part
    followed by the loop over the second. *)
Lemma for_each_file_app_aux folder_path xml_mapping l1 l2 all_records s :
  for_each_file fromstring find w folder_path xml_mapping (l1 ++ l2)
                all_records s
  = (all_records' <- for_each_file fromstring find w folder_path xml_mapping
                                   l1 all_records ;;
     for_each_file fromstring find w folder_path xml_mapping l2 all_records')
      s.
Proof.
  revert all_records s.
  induction l1 as [|f l1 IH]; intros all_records s; cbn [app for_each_file].
  - reflexivity.
  - unfold bind.
    destruct (visit fromstring find w folder_path xml_mapping all_records f s)
      as [[rs|e] s1]; [|reflexivity].
    rewrite IH. reflexivity.
Qed.

(** The turn of the loop on an XML file that cannot be opened. *)
Lemma visit_unreadable folder_path xml_mapping all_records filename cause s :
  is_xml filename = true ->
  file w (PyStr.os_path_join folder_path filename) = Unreadable cause ->
  visit fromstring find w folder_path xml_mapping all_records filename s
  = (Raise (OSError cause),
     {| stdout := stdout s ++ ["  -> Extracting XML: " +++ filename];
        excel := excel s |}).
Proof.
  unfold is_xml, visit. intros -> Hf. unfold bind, print.
  now rewrite (extract_from_xml_unreadable fromstring find w _ cause).
Qed.

End MoreXml.

(** X3.  A locator that is not a path expression: the [SyntaxError] of
    [find] is not a [ParseError], so [extract_from_xml] does not catch it.
    On a readable, well-formed file whose mapping holds such a locator
    after locators that are fine, the extractor raises that error, prints
    nothing and returns no Record. *)
Theorem bad_locator_raises
        (fromstring : string -> string + Element)
        (find : Element -> string -> string + option Element)
        (w : World) (xml_file data : string) (root : Element)
        (before after : mapping) (c p msg : string) (s : Sys) :
  file w xml_file = Content data ->
  fromstring data = inr root ->
  (forall c' p', In (c', p') before -> exists r, find root p' = inr r) ->
  find root p = inl msg ->
  extract_from_xml fromstring find w xml_file (before ++ (c, p) :: after) s
  = (Raise (SyntaxError msg), s).
Proof.
  intros Hf Hp Hv Hbad.
  unfold extract_from_xml, try_except, bind, ET_parse.
  rewrite Hf, Hp. cbn [ret].
  now rewrite (xml_fields_syntax_error find root before c p after msg).
Qed.

Lemma bad_locator_raises_witness :
  extract_from_xml SimpleET.fromstring SimpleET.find Examples.w_one
                   "in/a.xml"
                   ([("Age", "./details/age")]
                    ++ ("Full Name", "/details/name") :: [("Email", "x")])
                   init
  = (Raise (SyntaxError "cannot use absolute path on element"), init).
Proof.
  apply (bad_locator_raises SimpleET.fromstring SimpleET.find Examples.w_one
           "in/a.xml" Examples.a_xml Examples.a_root).
  - reflexivity.
  - reflexivity.
  - intros c' p' H. each_item H. eexists. reflexivity.
  - reflexivity.
Defined.

(** X4.  A folder none of whose entries ends in [.xml] (in any case),
    [.met] files included: the run prints the scan line and the warning,
    nothing about any entry, writes nothing and ends normally.  The empty
    folder is the case of no entry at all. *)
Theorem no_xml_entry_only_warns
        (fromstring : string -> string + Element)
        (find : Element -> string -> string + option Element)
        (w : World) (folder_path : string) (xml_mapping met_mapping : mapping)
        (out : string) (names : list string) (s : Sys) :
  listdir w folder_path = Ret names ->
  forallb (fun f => negb (is_xml f)) names = true ->
  process_folder fromstring find w folder_path xml_mapping met_mapping out s
  = (Ret tt,
     {| stdout := stdout s ++ [info_line folder_path; warning_line];
        excel := excel s |}).
Proof.
  intros Hl Hn.
  unfold process_folder, scan, bind, print, os_listdir. rewrite Hl.
  rewrite (for_each_file_not_xml fromstring find w _ _ names) by exact Hn.
  unfold export, print. cbn [stdout excel].
  now rewrite <- app_assoc.
Qed.

Lemma no_xml_entry_only_warns_witness :
  Examples.run Examples.w_met_only Examples.xml_mapping Examples.met_mapping
  = (Ret tt,
     {| stdout := [] ++ [info_line "in"; warning_line]; excel := [] |}).
Proof.
  apply (no_xml_entry_only_warns SimpleET.fromstring SimpleET.find
           Examples.w_met_only "in" Examples.xml_mapping Examples.met_mapping
           "out.xlsx" ["b.met"] init);
    reflexivity.
Defined.

(** X6.  A folder that cannot be listed: the error of [os.listdir] leaves
    [process_folder] after the scan line; there is no warning and nothing
    is written. *)
Theorem listdir_error_leaves_run
        (fromstring : string -> string + Element)
        (find : Element -> string -> string + option Element)
        (w : World) (folder_path : string) (xml_mapping met_mapping : mapping)
        (out : string) (e : exn) (s : Sys) :
  listdir w folder_path = Raise e ->
  process_folder fromstring find w folder_path xml_mapping met_mapping out s
  = (Raise e,
     {| stdout := stdout s ++ [info_line folder_path]; excel := excel s |}).
Proof.
  intros Hl.
  unfold process_folder, scan, bind, print, os_listdir. now rewrite Hl.
Qed.

Lemma listdir_error_leaves_run_witness :
  process_folder SimpleET.fromstring SimpleET.find Examples.w_one "nowhere"
                 Examples.xml_mapping Examples.met_mapping "out.xlsx" init
  = (Raise (OSError "[Errno 2] No such file or directory: 'nowhere'"),
     {| stdout := [] ++ [info_line "nowhere"]; excel := [] |}).
Proof.
  apply (listdir_error_leaves_run SimpleET.fromstring SimpleET.find
           Examples.w_one "nowhere").
  reflexivity.
Defined.


(** X2.  An XML file that cannot be opened, met after entries that did
    not raise: the [OSError] of [ET.parse] leaves [process_folder].  The
    console ends with the line announcing the file, without an error
    line; the entries after it are not looked at and nothing is written,
    the records collected so far included. *)
Theorem unreadable_xml_raises
        (fromstring : string -> string + Element)
        (find : Element -> string -> string + option Element)
        (w : World) (folder_path : string) (xml_mapping met_mapping : mapping)
        (out : string) (before after : list string) (filename cause : string)
        (s : Sys) :
  listdir w folder_path = Ret (before ++ filename :: after) ->
  any_raises fromstring find w folder_path xml_mapping before = false ->
  is_xml filename = true ->
  file w (PyStr.os_path_join folder_path filename) = Unreadable cause ->
  exists log,
    process_folder fromstring find w folder_path xml_mapping met_mapping out s
    = (Raise (OSError cause),
       {| stdout := stdout s ++ log ++ ["  -> Extracting XML: " +++ filename];
          excel := excel s |}).
Proof.
  intros Hl Hb Hx Hf.
  unfold process_folder, scan, bind at 1 2 3, print, os_listdir. rewrite Hl.
  rewrite for_each_file_app_aux. unfold bind at 1.
  match goal with
  | |- context [for_each_file _ _ _ _ _ before [] ?s1] =>
      destruct (for_each_file_frame fromstring find w folder_path xml_mapping
                  before [] s1) as (log & o & -> & Hok & _)
  end.
  rewrite (Hok Hb). cbn [for_each_file]. unfold bind at 1.
  rewrite (visit_unreadable fromstring find w _ _ _ _ cause) by assumption.
  cbn [stdout excel].
  exists (info_line folder_path :: log).
  now rewrite <- !app_assoc.
Qed.

Lemma unreadable_xml_raises_witness :
  exists log,
    Examples.run Examples.w_denied Examples.xml_mapping Examples.met_mapping
    = (Raise (OSError "[Errno 13] Permission denied"),
       {| stdout := [] ++ log ++ ["  -> Extracting XML: " +++ "locked.xml"];
          excel := [] |}).
Proof.
  apply (unreadable_xml_raises SimpleET.fromstring SimpleET.find
           Examples.w_denied "in" Examples.xml_mapping Examples.met_mapping
           "out.xlsx" ["a.xml"] ["C.XML"] "locked.xml"
           "[Errno 13] Permission denied" init);
    reflexivity.
Defined.

Module MoreDictFacts.
Import PyDict.

Lemma fromkeys_fold_nodup (l : list string) (d : dict unit) :
  NoDup (keys d) ->
  NoDup (keys (fold_left (fun d k => set k tt d) l d)).
Proof.
  revert d. induction l as [|k l IH]; intros d N; cbn [fold_left].
  - exact N.
  - apply IH. rewrite PyDictFacts.keys_set_tt.
    destruct (absent (keys d) k) eqn:E; [|exact N].
    apply PyDictFacts.absent_true in E.
    apply NoDup_app; [exact N|repeat constructor; intros []|].
    intros a I [<-|[]]. contradiction.
Qed.

Lemma fromkeys_fold_in (l : list string) (d : dict unit) k :
  In k (keys (fold_left (fun d k => set k tt d) l d))
  <-> In k (keys d) \/ In k l.
Proof.
  revert d. induction l as [|k0 l IH]; intros d; cbn [fold_left In].
  - tauto.
  - rewrite IH, PyDictFacts.keys_set_tt.
    destruct (absent (keys d) k0) eqn:E.
    + rewrite in_app_iff. cbn [In]. tauto.
    + assert (In k0 (keys d)) as I.
      { destruct (in_dec string_dec k0 (keys d)) as [I|N]; [exact I|].
        apply PyDictFacts.absent_true in N. congruence. }
      split; [tauto|]. intros [H|[<-|H]]; tauto.
Qed.

(** Keys that are all present already add nothing. *)
Lemma fromkeys_fold_present (l : list string) (d : dict unit) :
  (forall k, In k l -> In k (keys d)) ->
  keys (fold_left (fun d k => set k tt d) l d) = keys d.
Proof.
  revert d. induction l as [|k l IH]; intros d H; cbn [fold_left].
  - reflexivity.
  - assert (keys (set k tt d) = keys d) as E.
    { apply PyDictFacts.keys_set_present, H. now left. }
    rewrite IH; [exact E|].
    intros k' I. rewrite E. apply H. now right.
Qed.

Lemma keys_fromkeys (xs : list string) :
  NoDup xs -> keys (fromkeys xs) = xs.
Proof.
  intros N. unfold fromkeys.
  rewrite PyDictFacts.keys_fold_fromkeys by exact N. simpl.
  clear. induction xs; simpl; congruence.
Qed.

Section Lookup.
Context {V : Type}.

Lemma get_absent k (d : dict V) : ~ In k (keys d) -> get k d = None.
Proof.
  induction d as [|[k' v'] d IH]; simpl; [reflexivity|].
  intros N. destruct (String.eqb k' k) eqn:E.
  - apply String.eqb_eq in E. tauto.
  - apply IH. tauto.
Qed.

(** In a well-formed dictionary, looking a key up finds the item. *)
Lemma get_In k v (d : dict V) :
  NoDup (keys d) -> (get k d = Some v <-> In (k, v) d).
Proof.
  induction d as [|[k' v'] d IH]; simpl; intros N.
  - split; [discriminate|tauto].
  - inversion N as [|? ? N1 N2]; subst.
    destruct (String.eqb k' k) eqn:E.
    + apply String.eqb_eq in E. subst k'. split.
      * intros [= ->]. now left.
      * intros [[= ->]|I]; [reflexivity|].
        exfalso. apply N1. change k with (fst (k, v)). now apply in_map.
    + apply String.eqb_neq in E. rewrite (IH N2). split; [tauto|].
      intros [[= -> _]|I]; [congruence|exact I].
Qed.

Lemma get_perm k (d1 d2 : dict V) :
  NoDup (keys d1) -> Permutation d1 d2 -> get k d1 = get k d2.
Proof.
  intros N P.
  assert (NoDup (keys d2)) as N2.
  { apply (Permutation_NoDup (l := keys d1)); [|exact N].
    now apply Permutation_map. }
  destruct (get k d1) as [v|] eqn:G1.
  - symmetry. apply (get_In k v d2 N2).
    apply (Permutation_in _ P). now apply (get_In k v d1 N).
  - destruct (get k d2) as [v|] eqn:G2; [|reflexivity].
    apply (get_In k v d2 N2) in G2.
    apply (Permutation_in _ (Permutation_sym P)) in G2.
    apply (get_In k v d1 N) in G2. congruence.
Qed.

End Lookup.

End MoreDictFacts.

(** X8.  The column list of [process_folder] never repeats a name and
    holds exactly the column names of the two mappings, whatever the
    mappings are. *)
Theorem all_columns_nodup_complete (xml_mapping met_mapping : mapping) :
  NoDup (all_columns xml_mapping met_mapping)
  /\ forall k,
       In k (all_columns xml_mapping met_mapping)
       <-> In k (PyDict.keys xml_mapping) \/ In k (PyDict.keys met_mapping).
Proof.
  unfold all_columns, PyDict.fromkeys. split.
  - apply MoreDictFacts.fromkeys_fold_nodup. constructor.
  - intros k. rewrite MoreDictFacts.fromkeys_fold_in, in_app_iff.
    cbn [PyDict.keys map In]. tauto.
Qed.

(** X9.  When every column of the Key-Value mapping is a column of the XML
    mapping, as in the script's own mappings, the columns of the sheet are
    the columns of the XML mapping in their order. *)
Theorem shared_columns_are_xml_columns (xml_mapping met_mapping : mapping) :
  PyDict.wf xml_mapping ->
  (forall k, In k (PyDict.keys met_mapping) -> In k (PyDict.keys xml_mapping)) ->
  all_columns xml_mapping met_mapping = PyDict.keys xml_mapping.
Proof.
  intros Hwf Hsub. unfold all_columns, PyDict.fromkeys.
  rewrite fold_left_app.
  fold (PyDict.fromkeys (PyDict.keys xml_mapping)).
  rewrite MoreDictFacts.fromkeys_fold_present.
  - now apply MoreDictFacts.keys_fromkeys.
  - intros k I. rewrite MoreDictFacts.keys_fromkeys by exact Hwf.
    now apply Hsub.
Qed.

Lemma shared_columns_are_xml_columns_witness :
  all_columns Main.xml_mapping Main.met_mapping
  = PyDict.keys Main.xml_mapping.
Proof.
  apply (shared_columns_are_xml_columns Main.xml_mapping Main.met_mapping).
  - literal_wf.
  - intros k H. exact H.
Defined.

(** X10.  The order of the items of the mapping has no effect on what the
    Record holds: two mappings with the same items in different orders
    give, on the same readable and well-formed file, Records with the same
    items, hence the same value under every column. *)
Theorem mapping_order_is_immaterial
        (fromstring : string -> string + Element)
        (find : Element -> string -> string + option Element)
        (w : World) (xml_file data : string) (root : Element)
        (m1 m2 : mapping) (s : Sys) :
  file w xml_file = Content data ->
  fromstring data = inr root ->
  PyDict.wf m1 ->
  Permutation m1 m2 ->
  (forall c p, In (c, p) m1 -> exists r, find root p = inr r) ->
  exists rec1 rec2,
    extract_from_xml fromstring find w xml_file m1 s = (Ret (Some rec1), s)
    /\ extract_from_xml fromstring find w xml_file m2 s = (Ret (Some rec2), s)
    /\ Permutation rec1 rec2
    /\ forall c, PyDict.get c rec1 = PyDict.get c rec2.
Proof.
  intros Hf Hp Hwf P Hv.
  assert (PyDict.wf m2) as Hwf2.
  { unfold PyDict.wf, PyDict.keys in *.
    apply (Permutation_NoDup (l := map fst m1)); [|exact Hwf].
    now apply Permutation_map. }
  exists (map (fun '(c, p) => (c, resolve find root p)) m1),
         (map (fun '(c, p) => (c, resolve find root p)) m2).
  assert (Permutation (map (fun '(c, p) => (c, resolve find root p)) m1)
                      (map (fun '(c, p) => (c, resolve find root p)) m2))
    as PR by now apply Permutation_map.
  repeat apply conj.
  - now apply extract_from_xml_ok with (data := data).
  - apply extract_from_xml_ok with (data := data); trivial.
    intros c p I. apply (Hv c p).
    now apply (Permutation_in _ (Permutation_sym P)).
  - exact PR.
  - intros c. apply MoreDictFacts.get_perm; [|exact PR].
    now rewrite PyDictFacts.keys_map_items.
Qed.

Lemma mapping_order_is_immaterial_witness :
  exists rec1 rec2,
    extract_from_xml SimpleET.fromstring SimpleET.find Examples.w_one
                     "in/a.xml" Examples.xml_mapping init
    = (Ret (Some rec1), init)
    /\ extract_from_xml SimpleET.fromstring SimpleET.find Examples.w_one
                        "in/a.xml" (rev Examples.xml_mapping) init
       = (Ret (Some rec2), init)
    /\ Permutation rec1 rec2
    /\ forall c, PyDict.get c rec1 = PyDict.get c rec2.
Proof.
  apply (mapping_order_is_immaterial SimpleET.fromstring SimpleET.find
           Examples.w_one "in/a.xml" Examples.a_xml Examples.a_root).
  - reflexivity.
  - reflexivity.
  - literal_wf.
  - apply Permutation_rev.
  - intros c p H. each_item H; eexists; reflexivity.
Defined.

Section MoreFolder.

Variable fromstring : string -> string + Element.
Variable find : Element -> string -> string + option Element.
Variable w : World.
Variable folder_path : string.

(** With an empty mapping no file contributes a record. *)
Lemma contribution_empty_mapping filename :
  contributed (contribution fromstring find w folder_path [] filename) = [].
Proof.
  unfold contribution, visit.
  destruct (PyStr.endswith (PyStr.lower filename) ".xml"); [|reflexivity].
  unfold bind, print, extract_from_xml, try_except, bind, ET_parse.
  destruct (file w (PyStr.os_path_join folder_path filename)) as [cause|data];
    [reflexivity|].
  destruct (fromstring data) as [msg|root]; reflexivity.
Qed.

Lemma all_contributed_empty_mapping names :
  all_contributed fromstring find w folder_path [] names = [].
Proof.
  unfold all_contributed.
  induction names as [|f names IH]; cbn [flat_map]; [reflexivity|].
  now rewrite contribution_empty_mapping, IH.
Qed.

(** A file contributes at most one record, and none unless it is sent to
    the XML extractor. *)
Lemma contribution_length xml_mapping filename :
  List.length
    (contributed
       (contribution fromstring find w folder_path xml_mapping filename))
  <= if is_xml filename then 1 else 0.
Proof.
  unfold contribution, visit, is_xml.
  destruct (PyStr.endswith (PyStr.lower filename) ".xml");
    [|cbn; lia].
  unfold bind, print.
  match goal with
  | |- context [extract_from_xml ?a ?b ?c ?d ?e ?s1] =>
      destruct (extract_from_xml a b c d e s1) as [[rec|e1] s2]
  end; [|cbn; lia].
  unfold ret. cbn [fst contributed]. unfold collect.
  destruct (truthy rec); [|cbn; lia].
  destruct rec as [r|]; cbn; lia.
Qed.

Lemma all_contributed_length xml_mapping names :
  List.length (all_contributed fromstring find w folder_path xml_mapping names)
  <= List.length (filter is_xml names).
Proof.
  unfold all_contributed.
  induction names as [|f names IH]; cbn [flat_map filter]; [cbn; lia|].
  rewrite length_app.
  pose proof (contribution_length xml_mapping f) as H.
  destruct (is_xml f); cbn [List.length]; lia.
Qed.

End MoreFolder.

Lemma collect_nonempty all_records (r : record) :
  r <> [] -> collect all_records (Some r) = all_records ++ [r].
Proof. destruct r; [congruence|reflexivity]. Qed.

(** The row of a Record extracted with the XML mapping, under the columns
    of the sheet: the resolved values, then blanks. *)
Lemma xml_row {X} (f : X -> option string) (items : list (string * X))
      (others : list string) :
  NoDup (PyDict.keys items) ->
  map (cell_of (map (fun '(c, x) => (c, f x)) items))
      (PyDict.keys items
       ++ filter (PyDict.absent (PyDict.keys items)) others)
  = map (fun '(c, x) => f x) items
    ++ map (fun _ => None)
           (filter (PyDict.absent (PyDict.keys items)) others).
Proof.
  intros N. rewrite map_app. f_equal.
  - unfold PyDict.keys. rewrite map_map. apply map_ext_in.
    intros [c x] I. unfold cell_of. cbn [fst].
    now rewrite (PyDictFacts.get_map_items f items c x N I).
  - apply map_ext_in. intros c I. apply filter_In in I. destruct I as [_ A].
    apply PyDictFacts.absent_true in A. unfold cell_of.
    rewrite MoreDictFacts.get_absent; [reflexivity|].
    now rewrite PyDictFacts.keys_map_items.
Qed.

(** X11.  With an empty XML mapping no run writes a sheet, whatever the
    folder holds: every Record the extractor returns is empty and
    [if record:] drops it. *)
Theorem empty_xml_mapping_never_writes
        (fromstring : string -> string + Element)
        (find : Element -> string -> string + option Element)
        (w : World) (folder_path : string) (met_mapping : mapping)
        (out : string) (s : Sys) :
  excel (snd (process_folder fromstring find w folder_path [] met_mapping
                             out s))
  = excel s.
Proof.
  destruct (process_folder_frame fromstring find w folder_path [] met_mapping
              out s) as (log & o & ->).
  cbn [snd excel]. unfold exported.
  destruct (listdir w folder_path) as [names|e]; [|apply app_nil_r].
  rewrite all_contributed_empty_mapping.
  destruct (any_raises fromstring find w folder_path [] names);
    apply app_nil_r.
Qed.

(** X12.  A run adds at most one sheet, at the destination; the sheet is
    never empty and has at most as many rows as the listing has names
    ending in [.xml]. *)
Theorem sheet_rows_bounded
        (fromstring : string -> string + Element)
        (find : Element -> string -> string + option Element)
        (w : World) (folder_path : string) (xml_mapping met_mapping : mapping)
        (out : string) (names : list string) (s : Sys) :
  listdir w folder_path = Ret names ->
  exists sheets,
    excel (snd (process_folder fromstring find w folder_path xml_mapping
                               met_mapping out s))
    = excel s ++ sheets
    /\ List.length sheets <= 1
    /\ forall p df, In (p, df) sheets ->
         p = out
         /\ 1 <= List.length (rows df)
         /\ List.length (rows df) <= List.length (filter is_xml names).
Proof.
  intros Hl.
  exists (exported fromstring find w folder_path xml_mapping met_mapping out).
  split.
  - destruct (process_folder_frame fromstring find w folder_path xml_mapping
                met_mapping out s) as (log & o & ->). reflexivity.
  - unfold exported. rewrite Hl.
    destruct (any_raises fromstring find w folder_path xml_mapping names);
      [split; [cbn; lia|intros p df []]|].
    pose proof (all_contributed_length fromstring find w folder_path
                  xml_mapping names) as L.
    destruct (all_contributed fromstring find w folder_path xml_mapping names)
      as [|r rs]; [split; [cbn; lia|intros p df []]|].
    split; [cbn; lia|].
    intros p df [[= <- <-]|[]]. cbn [rows pd_DataFrame].
    rewrite length_map. cbn [List.length] in *. repeat split; lia.
Qed.

Lemma sheet_rows_bounded_witness :
  exists sheets,
    excel (snd (Examples.run Examples.w_mixed Examples.xml_mapping
                             Examples.met_mapping))
    = [] ++ sheets
    /\ List.length sheets <= 1
    /\ forall p df, In (p, df) sheets ->
         p = "out.xlsx"
         /\ 1 <= List.length (rows df)
         /\ List.length (rows df)
            <= List.length
                 (filter is_xml
                    ["a.xml"; "b.met"; "notes.txt"; "bad.xml"; "C.XML"]).
Proof.
  apply (sheet_rows_bounded SimpleET.fromstring SimpleET.find Examples.w_mixed
           "in" Examples.xml_mapping Examples.met_mapping "out.xlsx"
           ["a.xml"; "b.met"; "notes.txt"; "bad.xml"; "C.XML"] init).
  reflexivity.
Defined.

(** X13.  A folder whose one entry is a readable, well-formed XML file,
    with a mapping that is not empty: the run announces the scan and the
    file, writes one sheet and reports success.  The sheet has the columns
    of the XML mapping followed by the other columns of the Key-Value
    mapping, and one row: the values the paths resolve to, in the order of
    the mapping, then a blank for each of the other columns. *)
Theorem single_xml_file_sheet
        (fromstring : string -> string + Element)
        (find : Element -> string -> string + option Element)
        (w : World) (folder_path : string) (xml_mapping met_mapping : mapping)
        (out filename data : string) (root : Element) (s : Sys) :
  listdir w folder_path = Ret [filename] ->
  is_xml filename = true ->
  file w (PyStr.os_path_join folder_path filename) = Content data ->
  fromstring data = inr root ->
  PyDict.wf xml_mapping ->
  xml_mapping <> [] ->
  PyDict.wf met_mapping ->
  (forall c p, In (c, p) xml_mapping -> exists r, find root p = inr r) ->
  let others :=
    filter (PyDict.absent (PyDict.keys xml_mapping))
           (PyDict.keys met_mapping) in
  process_folder fromstring find w folder_path xml_mapping met_mapping out s
  = (Ret tt,
     {| stdout := stdout s
                  ++ [info_line folder_path;
                      "  -> Extracting XML: " +++ filename;
                      success_line out];
        excel :=
          excel s
          ++ [(out,
               {| columns := PyDict.keys xml_mapping ++ others;
                  rows := [map (fun '(c, p) => resolve find root p)
                               xml_mapping
                           ++ map (fun _ => None) others] |})] |}).
Proof.
  intros Hl Hx Hf Hp Hwf Hne Hwm Hv others.
  unfold process_folder, scan, bind, print, os_listdir. rewrite Hl.
  cbn [for_each_file]. unfold bind, visit.
  unfold is_xml in Hx. rewrite Hx. unfold bind, print.
  rewrite (extract_from_xml_ok fromstring find w _ data root) by assumption.
  unfold ret. rewrite collect_nonempty
    by (destruct xml_mapping; [congruence|discriminate]).
  cbn [app]. unfold export, bind, to_excel, print. cbn [stdout excel].
  unfold pd_DataFrame, all_columns. cbn [map].
  rewrite PyDictFacts.keys_fromkeys_app by assumption.
  rewrite (xml_row (resolve find root) xml_mapping) by exact Hwf.
  now rewrite <- !app_assoc.
Qed.

Lemma single_xml_file_sheet_witness :
  Examples.run Examples.w_one Examples.xml_mapping
               [("Age", "Age"); ("City", "City")]
  = (Ret tt,
     {| stdout := []
                  ++ [info_line "in"; "  -> Extracting XML: " +++ "a.xml";
                      success_line "out.xlsx"];
        excel :=
          []
          ++ [("out.xlsx",
               {| columns := ["Full Name"; "Age"; "Email Address"] ++ ["City"];
                  rows := [[Some "Ann"; Some "30"; Some "a@x.com"]
                           ++ [None]] |})] |}).
Proof.
  apply (single_xml_file_sheet SimpleET.fromstring SimpleET.find
           Examples.w_one "in" Examples.xml_mapping
           [("Age", "Age"); ("City", "City")] "out.xlsx" "a.xml"
           Examples.a_xml Examples.a_root init).
  - reflexivity.
  - reflexivity.
  - reflexivity.
  - reflexivity.
  - literal_wf.
  - discriminate.
  - literal_wf.
  - intros c p H. each_item H; eexists; reflexivity.
Defined.

Module MoreLineFacts.
Import PyStr.

(** Reading in text mode neither adds nor removes a character other than
    CR and LF. *)
Lemma contains_translate_newlines c s :
  c <> CR -> c <> LF ->
  contains c (translate_newlines s) = contains c s.
Proof.
  intros Hcr Hlf.
  assert (Ascii.eqb CR c = false) as Ecr
      by (apply Ascii.eqb_neq; congruence).
  assert (Ascii.eqb LF c = false) as Elf
      by (apply Ascii.eqb_neq; congruence).
  enough (contains c (translate_newlines s) = contains c s
          /\ forall a, contains c (translate_newlines (String a s))
                       = contains c (String a s)) as [H _] by exact H.
  induction s as [|b s [IH1 IH2]].
  - split; [reflexivity|]. intros a. cbn [translate_newlines].
    destruct (Ascii.eqb a CR) eqn:E.
    + apply Ascii.eqb_eq in E. subst a. cbn [contains]. now rewrite Ecr, Elf.
    + reflexivity.
  - split; [apply IH2|]. intros a.
    change (translate_newlines (String a (String b s)))
      with (if Ascii.eqb a CR then
              if Ascii.eqb b LF then String LF (translate_newlines s)
              else String LF (translate_newlines (String b s))
            else String a (translate_newlines (String b s))).
    destruct (Ascii.eqb a CR) eqn:E.
    + apply Ascii.eqb_eq in E. subst a.
      destruct (Ascii.eqb b LF) eqn:E2.
      * apply Ascii.eqb_eq in E2. subst b.
        cbn [contains]. now rewrite Ecr, Elf, IH1.
      * change (contains c (String LF (translate_newlines (String b s))))
          with (if Ascii.eqb LF c then true
                else contains c (translate_newlines (String b s))).
        change (contains c (String CR (String b s)))
          with (if Ascii.eqb CR c then true else contains c (String b s)).
        rewrite Ecr, Elf. apply IH2.
    + change (contains c (String a (translate_newlines (String b s))))
        with (if Ascii.eqb a c then true
              else contains c (translate_newlines (String b s))).
      change (contains c (String a (String b s)))
        with (if Ascii.eqb a c then true else contains c (String b s)).
      now rewrite IH2.
Qed.

Lemma splitlines_keepends_without c s :
  contains c s = false ->
  Forall (fun l => contains c l = false) (splitlines_keepends s).
Proof.
  induction s as [|a s IH]; cbn [contains splitlines_keepends].
  - constructor.
  - destruct (Ascii.eqb a c) eqn:E; [discriminate|]. intros H.
    specialize (IH H).
    destruct (Ascii.eqb a LF) eqn:E2.
    + apply Ascii.eqb_eq in E2. subst a.
      constructor; [|exact IH]. cbn [contains]. now rewrite E.
    + destruct (splitlines_keepends s) as [|l ls].
      * constructor; [|constructor]. cbn [contains]. now rewrite E.
      * inversion IH as [|? ? Hl Hls]; subst.
        constructor; [|exact Hls]. cbn [contains]. now rewrite E.
Qed.

Lemma readlines_without_colon data :
  contains ":" data = false ->
  Forall (fun l => contains ":" l = false) (readlines data).
Proof.
  intros H. unfold readlines. apply splitlines_keepends_without.
  rewrite contains_translate_newlines; [exact H|discriminate|discriminate].
Qed.

End MoreLineFacts.

Lemma fold_met_line_without_colon lines file_data :
  Forall (fun l => PyStr.contains ":" l = false) lines ->
  fold_left met_line lines file_data = file_data.
Proof.
  induction lines as [|l lines IH]; intros H; cbn [fold_left].
  - reflexivity.
  - inversion H as [|? ? Hl Hls]; subst.
    rewrite met_line_nosep by exact Hl. now apply IH.
Qed.

(** X14.  A readable key-value file without any colon, the empty file
    included, defines no key: the Record holds [None] under every column
    of the mapping, and nothing is printed. *)
Theorem no_separator_all_None
        (w : World) (met_file data : string) (data_mapping : mapping)
        (s : Sys) :
  file w met_file = Content data ->
  PyStr.contains ":" data = false ->
  PyDict.wf data_mapping ->
  extract_from_met w met_file data_mapping s
  = (Ret (Some (map (fun '(c, _) => (c, None)) data_mapping)), s).
Proof.
  intros Hf Hc Hwf.
  rewrite (extract_from_met_ok w met_file data) by exact Hf.
  unfold met_file_data.
  rewrite fold_met_line_without_colon
    by now apply MoreLineFacts.readlines_without_colon.
  rewrite met_record_wf by exact Hwf.
  do 3 f_equal.
Qed.

Lemma no_separator_all_None_witness :
  extract_from_met Examples.w_mixed "in/notes.txt" Examples.met_mapping init
  = (Ret (Some (map (fun '(c, _) => (c, None)) Examples.met_mapping)), init).
Proof.
  apply (no_separator_all_None Examples.w_mixed "in/notes.txt" "hello").
  - reflexivity.
  - reflexivity.
  - literal_wf.
Defined.

Module MoreKeyFacts.
Import PyDict.

Lemma keys_set_subset {V} k k' (v : V) (d : dict V) :
  In k (keys (set k' v d)) -> k = k' \/ In k (keys d).
Proof.
  unfold keys. induction d as [|[k0 v0] d IH]; cbn [set].
  - cbn. intros [<-|[]]. now left.
  - destruct (String.eqb k0 k'); cbn [map fst In] in *.
    + tauto.
    + intros [H|H]; [tauto|]. destruct (IH H); tauto.
Qed.

End MoreKeyFacts.

Section MoreKeys.

Variable fromstring : string -> string + Element.
Variable find : Element -> string -> string + option Element.
Variable w : World.

(** The Record has no column but those of the mapping. *)
Lemma xml_fields_keys root items rec r s k :
  fst (xml_fields find root items rec s) = Ret r ->
  In k (PyDict.keys r) ->
  In k (PyDict.keys rec) \/ In k (PyDict.keys items).
Proof.
  revert rec. induction items as [|[c p] items IH]; intros rec; cbn [xml_fields].
  - intros [= <-]. tauto.
  - unfold bind, Element_find.
    destruct (find root p) as [msg|element]; cbn [raise ret fst];
      [discriminate|].
    intros H I. destruct (IH _ H I) as [J|J].
    + apply MoreKeyFacts.keys_set_subset in J.
      destruct J as [->|J]; [right; now left|now left].
    + right. now right.
Qed.

Lemma extract_from_xml_keys xml_file data_mapping r s s' k :
  extract_from_xml fromstring find w xml_file data_mapping s
  = (Ret (Some r), s') ->
  In k (PyDict.keys r) -> In k (PyDict.keys data_mapping).
Proof.
  unfold extract_from_xml, try_except, bind, ET_parse.
  destruct (file w xml_file) as [cause|data]; cbn [raise]; [discriminate|].
  destruct (fromstring data) as [msg|root]; cbn [raise ret print];
    [discriminate|].
  destruct (xml_fields find root data_mapping [] s) as [[r'|[]] s1] eqn:E;
    try discriminate.
  intros [= <- <-] I.
  destruct (xml_fields_keys root data_mapping [] r' s k) as [[]|J];
    [now rewrite E|exact I|exact J].
Qed.

Lemma contribution_keys folder_path xml_mapping filename r k :
  In r (contributed
          (contribution fromstring find w folder_path xml_mapping filename)) ->
  In k (PyDict.keys r) -> In k (PyDict.keys xml_mapping).
Proof.
  unfold contribution, visit.
  destruct (PyStr.endswith (PyStr.lower filename) ".xml"); [|intros []].
  unfold bind, print.
  match goal with
  | |- context [extract_from_xml ?a ?b ?c ?d ?e ?s1] =>
      destruct (extract_from_xml a b c d e s1) as [[rec|e1] s2] eqn:E
  end; [|intros []].
  unfold ret. cbn [fst contributed]. unfold collect.
  destruct (truthy rec); [|intros []].
  destruct rec as [r0|]; [|intros []].
  intros [<-|[]]. now apply (extract_from_xml_keys _ _ _ _ _ _ E).
Qed.

Lemma all_contributed_keys folder_path xml_mapping names r k :
  In r (all_contributed fromstring find w folder_path xml_mapping names) ->
  In k (PyDict.keys r) -> In k (PyDict.keys xml_mapping).
Proof.
  unfold all_contributed. intros I. apply in_flat_map in I.
  destruct I as (f & _ & I).
  exact (contribution_keys folder_path xml_mapping f r k I).
Qed.

End MoreKeys.

(** X18.  In every sheet a run writes, the cells under a column that only
    the Key-Value mapping has are blank: the rows come from XML files
    alone, and their Records have no column outside the XML mapping. *)
Theorem met_only_columns_are_blank
        (fromstring : string -> string + Element)
        (find : Element -> string -> string + option Element)
        (w : World) (folder_path : string) (xml_mapping met_mapping : mapping)
        (out : string) (s : Sys) :
  exists sheets,
    excel (snd (process_folder fromstring find w folder_path xml_mapping
                               met_mapping out s))
    = excel s ++ sheets
    /\ forall p df row i c,
         In (p, df) sheets -> In row (rows df) ->
         nth_error (columns df) i = Some c ->
         ~ In c (PyDict.keys xml_mapping) ->
         nth_error row i = Some None.
Proof.
  exists (exported fromstring find w folder_path xml_mapping met_mapping out).
  split.
  - destruct (process_folder_frame fromstring find w folder_path xml_mapping
                met_mapping out s) as (log & o & ->). reflexivity.
  - unfold exported.
    destruct (listdir w folder_path) as [names|e]; [|intros ? ? ? ? ? []].
    destruct (any_raises fromstring find w folder_path xml_mapping names);
      [intros ? ? ? ? ? []|].
    pose proof (all_contributed_keys fromstring find w folder_path xml_mapping
                  names) as K.
    destruct (all_contributed fromstring find w folder_path xml_mapping names)
      as [|r0 rs]; [intros ? ? ? ? ? []|].
    intros p df row i c [[= <- <-]|[]]. cbn [rows columns pd_DataFrame].
    intros Hrow Hcol Hc.
    apply in_map_iff in Hrow. destruct Hrow as (r & <- & Hr).
    rewrite nth_error_map, Hcol. cbn [option_map]. f_equal.
    unfold cell_of. rewrite MoreDictFacts.get_absent; [reflexivity|].
    intros I. apply Hc. exact (K r c Hr I).
Qed.

(** X17.  Of the Key-Value mapping a run uses the column names only: two
    Key-Value mappings with the same columns, whatever their keys, give
    the same console and the same sheets. *)
Theorem met_locators_are_unused
        (fromstring : string -> string + Element)
        (find : Element -> string -> string + option Element)
        (w : World) (folder_path : string)
        (xml_mapping met_mapping1 met_mapping2 : mapping)
        (out : string) (s : Sys) :
  PyDict.keys met_mapping1 = PyDict.keys met_mapping2 ->
  process_folder fromstring find w folder_path xml_mapping met_mapping1 out s
  = process_folder fromstring find w folder_path xml_mapping met_mapping2 out
                   s.
Proof.
  intros H. unfold process_folder, bind.
  destruct (scan fromstring find w folder_path xml_mapping s)
    as [[all_records|e] s1]; [|reflexivity].
  unfold export, all_columns. now rewrite H.
Qed.

Lemma met_locators_are_unused_witness :
  process_folder SimpleET.fromstring SimpleET.find Examples.w_mixed "in"
                 Examples.xml_mapping Examples.met_mapping "out.xlsx" init
  = process_folder SimpleET.fromstring SimpleET.find Examples.w_mixed "in"
                   Examples.xml_mapping Examples.xml_mapping "out.xlsx" init.
Proof.
  apply (met_locators_are_unused SimpleET.fromstring SimpleET.find
           Examples.w_mixed "in" Examples.xml_mapping Examples.met_mapping
           Examples.xml_mapping "out.xlsx" init).
  reflexivity.
Defined.

(** X15.  The script as it is started, on any folder contents: it writes
    nothing or one sheet, at [output_data.xlsx], with the columns
    [Full Name], [Age], [Email Address] and three cells in every row. *)
Theorem main_sheet
        (fromstring : string -> string + Element)
        (find : Element -> string -> string + option Element)
        (w : World) (s : Sys) :
  exists sheets,
    excel (snd (Main.main fromstring find w s)) = excel s ++ sheets
    /\ List.length sheets <= 1
    /\ forall p df, In (p, df) sheets ->
         p = "output_data.xlsx"
         /\ columns df = ["Full Name"; "Age"; "Email Address"]
         /\ Forall (fun row => List.length row = 3) (rows df).
Proof.
  unfold Main.main.
  exists (exported fromstring find w Main.input_folder Main.xml_mapping
                   Main.met_mapping Main.output_file).
  split.
  - destruct (process_folder_frame fromstring find w Main.input_folder
                Main.xml_mapping Main.met_mapping Main.output_file s)
      as (log & o & ->). reflexivity.
  - unfold exported.
    destruct (listdir w Main.input_folder) as [names|e];
      [|split; [cbn; lia|intros ? ? []]].
    destruct (any_raises fromstring find w Main.input_folder Main.xml_mapping
                         names);
      [split; [cbn; lia|intros ? ? []]|].
    destruct (all_contributed fromstring find w Main.input_folder
                              Main.xml_mapping names) as [|r rs];
      [split; [cbn; lia|intros ? ? []]|].
    split; [cbn; lia|].
    intros p df [[= <- <-]|[]]. repeat split.
    cbn [rows pd_DataFrame]. apply Forall_forall. intros row I.
    apply in_map_iff in I. destruct I as (r' & <- & _).
    now rewrite length_map.
Qed.

(** X19.  Neither extractor writes to the disk, and each prints at most
    one line (the error line); what [extract_from_xml] returns or raises
    does not depend on the console and the disk it starts from. *)
Theorem extractors_only_print
        (fromstring : string -> string + Element)
        (find : Element -> string -> string + option Element)
        (w : World) (path : string) (data_mapping : mapping) (s : Sys) :
  (exists out,
     extract_from_xml fromstring find w path data_mapping s
     = (fst (extract_from_xml fromstring find w path data_mapping init),
        {| stdout := stdout s ++ out; excel := excel s |})
     /\ List.length out <= 1)
  /\ (exists out,
        extract_from_met w path data_mapping s
        = (fst (extract_from_met w path data_mapping init),
           {| stdout := stdout s ++ out; excel := excel s |})
        /\ List.length out <= 1).
Proof.
  split.
  - unfold extract_from_xml, try_except, bind, ET_parse.
    destruct (file w path) as [cause|data]; cbn [raise].
    + exists []. rewrite app_nil_r. split; [now destruct s|cbn; lia].
    + destruct (fromstring data) as [msg|root]; cbn [raise ret].
      * eexists. split; [reflexivity|cbn; lia].
      * rewrite (xml_fields_pure find root data_mapping [] s).
        rewrite (xml_fields_pure find root data_mapping [] init).
        exists []. rewrite app_nil_r. split; [|cbn; lia].
        destruct (fst (xml_fields find root data_mapping [] init))
          as [r|e] eqn:R; cbn [fst]; [now destruct s|].
        destruct (xml_fields_raises find _ _ _ _ R) as [msg ->].
        now destruct s.
  - unfold extract_from_met, try_except, bind, open_readlines.
    destruct (file w path) as [cause|data]; cbn [raise ret].
    + eexists. split; [reflexivity|cbn; lia].
    + exists []. rewrite app_nil_r. split; [now destruct s|cbn; lia].
Qed.

Section Skipped.

Variable fromstring : string -> string + Element.
Variable find : Element -> string -> string + option Element.
Variable w : World.
Variables (folder_path : string) (xml_mapping : mapping).

(** An entry that is not sent to the XML extractor, or that is sent and
    is not well-formed, contributes no record and no exception. *)
Lemma contribution_skipped filename :
  is_xml filename = false
  \/ (exists data msg,
        file w (PyStr.os_path_join folder_path filename) = Content data
        /\ fromstring data = inl msg) ->
  contribution fromstring find w folder_path xml_mapping filename = Ret [].
Proof.
  unfold contribution. intros [H|(data & msg & Hf & Hp)].
  - now rewrite (visit_not_xml fromstring find w _ _ _ _ _ H).
  - unfold visit.
    destruct (PyStr.endswith (PyStr.lower filename) ".xml"); [|reflexivity].
    unfold bind, print.
    now rewrite (extract_from_xml_malformed fromstring find w _ data msg).
Qed.

Lemma any_raises_skip before filename after :
  contribution fromstring find w folder_path xml_mapping filename = Ret [] ->
  any_raises fromstring find w folder_path xml_mapping
             (before ++ filename :: after)
  = any_raises fromstring find w folder_path xml_mapping (before ++ after).
Proof.
  intros H. unfold any_raises. rewrite !existsb_app. cbn [existsb].
  now rewrite H.
Qed.

Lemma all_contributed_skip before filename after :
  contribution fromstring find w folder_path xml_mapping filename = Ret [] ->
  all_contributed fromstring find w folder_path xml_mapping
                  (before ++ filename :: after)
  = all_contributed fromstring find w folder_path xml_mapping
                    (before ++ after).
Proof.
  intros H. unfold all_contributed. rewrite !flat_map_app. cbn [flat_map].
  now rewrite H.
Qed.

End Skipped.

(** X20.  An entry that does not end in [.xml], or an XML file that is
    readable and not well-formed, leaves the export as it would be without
    the entry: with the same files, a folder listed with the entry and the
    folder listed without it give the same sheets. *)
Theorem skipped_entry_changes_no_sheet
        (fromstring : string -> string + Element)
        (find : Element -> string -> string + option Element)
        (w1 w2 : World) (folder_path : string)
        (xml_mapping met_mapping : mapping) (out : string)
        (before after : list string) (filename : string) (s1 s2 : Sys) :
  (forall p, file w1 p = file w2 p) ->
  listdir w1 folder_path = Ret (before ++ filename :: after) ->
  listdir w2 folder_path = Ret (before ++ after) ->
  is_xml filename = false
  \/ (exists data msg,
        file w1 (PyStr.os_path_join folder_path filename) = Content data
        /\ fromstring data = inl msg) ->
  exists sheets,
    excel (snd (process_folder fromstring find w1 folder_path xml_mapping
                               met_mapping out s1))
    = excel s1 ++ sheets
    /\ excel (snd (process_folder fromstring find w2 folder_path xml_mapping
                                  met_mapping out s2))
       = excel s2 ++ sheets.
Proof.
  intros Hfiles Hl1 Hl2 Hskip.
  exists (exported fromstring find w2 folder_path xml_mapping met_mapping out).
  split.
  - destruct (process_folder_frame fromstring find w1 folder_path xml_mapping
                met_mapping out s1) as (log & o & ->).
    cbn [snd excel]. f_equal. unfold exported. rewrite Hl1, Hl2.
    pose proof (contribution_skipped fromstring find w1 folder_path
                  xml_mapping filename Hskip) as C.
    rewrite (any_raises_skip fromstring find w1 _ _ before filename after C).
    rewrite (all_contributed_skip fromstring find w1 _ _ before filename
               after C).
    rewrite (any_raises_ext fromstring find w1 w2 folder_path xml_mapping
               Hfiles).
    now rewrite (all_contributed_ext fromstring find w1 w2 folder_path
                   xml_mapping Hfiles).
  - destruct (process_folder_frame fromstring find w2 folder_path xml_mapping
                met_mapping out s2) as (log & o & ->). reflexivity.
Qed.

Lemma skipped_entry_changes_no_sheet_witness :
  exists sheets,
    excel (snd (process_folder SimpleET.fromstring SimpleET.find
                  (mkWorld (fun _ => Ret (["a.xml"] ++ "bad.xml" :: ["C.XML"]))
                           (file Examples.w_mixed))
                  "in" Examples.xml_mapping Examples.met_mapping "out.xlsx"
                  init))
    = [] ++ sheets
    /\ excel (snd (process_folder SimpleET.fromstring SimpleET.find
                     (mkWorld (fun _ => Ret (["a.xml"] ++ ["C.XML"]))
                              (file Examples.w_mixed))
                     "in" Examples.xml_mapping Examples.met_mapping "out.xlsx"
                     init))
       = [] ++ sheets.
Proof.
  apply (skipped_entry_changes_no_sheet SimpleET.fromstring SimpleET.find
           (mkWorld (fun _ => Ret (["a.xml"] ++ "bad.xml" :: ["C.XML"]))
                    (file Examples.w_mixed))
           (mkWorld (fun _ => Ret (["a.xml"] ++ ["C.XML"]))
                    (file Examples.w_mixed))
           "in" Examples.xml_mapping Examples.met_mapping "out.xlsx"
           ["a.xml"] ["C.XML"] "bad.xml" init init).
  - reflexivity.
  - reflexivity.
  - reflexivity.
  - right. exists Examples.bad_xml, "mismatched tag". split; reflexivity.
Defined.
